(** * CPU idle/run time accounting: kernel/sched/cpu_idleruntime.c

    A shallow embedding of the per-CPU idle/run time counters and of the
    proc interface that reads and resets them, followed by the properties
    of the accounting that the design document states. *)

From Stdlib Require Import ZArith Lia Sorted.
From stdpp Require Import gmap strings list pretty.

Local Open Scope Z_scope.

(** ** 64-bit unsigned arithmetic ([unsigned long long]) *)

Module U64.

Definition modulus : Z := 2 ^ 64.

Definition wrap (z : Z) : Z := z mod modulus.

Definition add (a b : Z) : Z := wrap (a + b).
Definition sub (a b : Z) : Z := wrap (a - b).

Definition in_range (z : Z) : Prop := 0 <= z < modulus.

End U64.

#[global] Arguments U64.modulus : simpl never.
#[global] Arguments U64.wrap : simpl never.
#[global] Arguments U64.add : simpl never.
#[global] Arguments U64.sub : simpl never.

(** ** Per-CPU data

    [DEFINE_PER_CPU(unsigned long long, idlestart)] and its three siblings:
    one instance of each variable per possible CPU.  The four variables of
    one CPU are grouped in a record; static storage starts zeroed. *)

#[projections(primitive)]
Record percpu := PerCpu {
  idlestart : Z;  (* clock value at which the current idle period began *)
  idlestop : Z;   (* clock value at which the current run period began *)
  idletime : Z;   (* accumulated idle time *)
  runtime : Z     (* accumulated run time *)
}.

Definition percpu_zero : percpu := PerCpu 0 0 0 0.

Definition wf_percpu (c : percpu) : Prop :=
  U64.in_range (idlestart c) /\ U64.in_range (idlestop c) /\
  U64.in_range (idletime c) /\ U64.in_range (runtime c).

Inductive pcvar := Idlestart | Idlestop | Idletime | Runtime.

Definition pc_get (v : pcvar) (c : percpu) : Z :=
  match v with
  | Idlestart => idlestart c
  | Idlestop => idlestop c
  | Idletime => idletime c
  | Runtime => runtime c
  end.

Definition pc_set (v : pcvar) (x : Z) (c : percpu) : percpu :=
  match v with
  | Idlestart => PerCpu x (idlestop c) (idletime c) (runtime c)
  | Idlestop => PerCpu (idlestart c) x (idletime c) (runtime c)
  | Idletime => PerCpu (idlestart c) (idlestop c) x (runtime c)
  | Runtime => PerCpu (idlestart c) (idlestop c) (idletime c) x
  end.

(** ** The proc filesystem, as an interface

    The file only calls into procfs; what those calls do to the proc tree
    is not its business.  The interface is a class so that the accounting
    results hold for every implementation of it. *)

Inductive file_operations := idleruntime_fops | idleruntime_all_fops.

Class ProcFs := {
  procfs : Type;
  proc_dir_entry : Type;
  (* proc_mkdir(name, parent): NULL parent is the root of /proc *)
  proc_mkdir : string -> option proc_dir_entry -> procfs -> option proc_dir_entry * procfs;
  (* proc_create_data(name, mode, parent, fops, data); the result is dropped by every caller *)
  proc_create_data :
    string -> Z -> option proc_dir_entry -> file_operations -> option nat -> procfs -> procfs;
  remove_proc_entry : string -> proc_dir_entry -> procfs -> procfs;
  proc_remove : proc_dir_entry -> procfs -> procfs
}.

(** ** The environment of one call

    What the rest of the kernel supplies: the per-CPU clock, whether the
    task a CPU is running is its idle task, the present and possible CPU
    masks, the hotplug configuration switch and the width of [long], which
    is that of size_t and ssize_t. *)

Record env := MkEnv {
  clock : nat -> Z;            (* cpu_clock(cpu) *)
  curr_is_idle : nat -> bool;  (* is_idle_task(cpu_rq(cpu)->curr) *)
  nr_cpu_ids : nat;
  cpu_present_mask : Z;
  cpu_possible_mask : Z;
  config_hotplug_cpu : bool;
  bits_per_long : Z            (* BITS_PER_LONG *)
}.

(* the environment of a kernel with 64-bit long *)
Definition Env (clock : nat -> Z) (curr_is_idle : nat -> bool) (nr_cpu_ids : nat)
    (cpu_present_mask cpu_possible_mask : Z) (config_hotplug_cpu : bool) : env :=
  MkEnv clock curr_is_idle nr_cpu_ids cpu_present_mask cpu_possible_mask
        config_hotplug_cpu 64.

(* a size_t of [w] bits returned as an ssize_t of [w] bits: the values from
   2^(w-1) on come back negative *)
Definition size_t_to_ssize_t (w : Z) (len : Z) : Z :=
  let u := len mod 2 ^ w in
  if u <? 2 ^ (w - 1) then u else u - 2 ^ w.

(** ** Events, for the locking discipline *)

Inductive event :=
  | EvLock (cpu : nat)
  | EvUnlock (cpu : nat)
  | EvLockInit (cpu : nat)
  | EvClock (cpu : nat)
  | EvCurr (cpu : nat)
  | EvLoad (v : pcvar) (cpu : nat)
  | EvStore (v : pcvar) (cpu : nat)
  | EvPreemptDisable
  | EvPreemptEnable.

(** ** Kernel state seen by this file *)

#[projections(primitive)]
Record kstate `{ProcFs} := KState {
  percpu_data : gmap nat percpu;
  idleruntime_dir : gmap nat proc_dir_entry;       (* absent = NULL *)
  root_idleruntime_dir : option proc_dir_entry;
  proc : procfs;
  notifier_registered : bool;
  klog : list event
}.

Section Kernel.
Context `{PF : ProcFs}.

Definition cell (s : kstate) (cpu : nat) : percpu :=
  default percpu_zero (percpu_data s !! cpu).

Definition set_percpu_data (d : gmap nat percpu) (s : kstate) : kstate :=
  KState _ d (idleruntime_dir s) (root_idleruntime_dir s) (proc s)
         (notifier_registered s) (klog s).

Definition set_idleruntime_dir (d : gmap nat proc_dir_entry) (s : kstate) : kstate :=
  KState _ (percpu_data s) d (root_idleruntime_dir s) (proc s)
         (notifier_registered s) (klog s).

Definition set_root_idleruntime_dir (r : option proc_dir_entry) (s : kstate) : kstate :=
  KState _ (percpu_data s) (idleruntime_dir s) r (proc s)
         (notifier_registered s) (klog s).

Definition set_proc (p : procfs) (s : kstate) : kstate :=
  KState _ (percpu_data s) (idleruntime_dir s) (root_idleruntime_dir s) p
         (notifier_registered s) (klog s).

Definition set_notifier_registered (b : bool) (s : kstate) : kstate :=
  KState _ (percpu_data s) (idleruntime_dir s) (root_idleruntime_dir s) (proc s)
         b (klog s).

Definition set_klog (l : list event) (s : kstate) : kstate :=
  KState _ (percpu_data s) (idleruntime_dir s) (root_idleruntime_dir s) (proc s)
         (notifier_registered s) l.

(** *** A state monad over [kstate] *)

Definition M (A : Type) : Type := kstate -> A * kstate.

Definition ret {A} (a : A) : M A := fun s => (a, s).

Definition bind {A B} (k : A -> M B) (m : M A) : M B :=
  fun s => let (a, s') := m s in k a s'.

#[global] Instance M_ret : MRet M := @ret.
#[global] Instance M_bind : MBind M := @bind.

Definition gets {A} (f : kstate -> A) : M A := fun s => (f s, s).
Definition modify (f : kstate -> kstate) : M unit := fun s => (tt, f s).

Definition emit (ev : event) : M unit :=
  modify (fun s => set_klog (klog s ++ [ev]) s).

(* a procfs call that returns a value *)
Definition proc_call {A} (f : procfs -> A * procfs) : M A := fun s =>
  let (a, p) := f (proc s) in (a, set_proc p s).

(* a procfs call whose result the caller drops *)
Definition proc_call_ (f : procfs -> procfs) : M unit :=
  modify (fun s => set_proc (f (proc s)) s).

End Kernel.

(** ** seq_file: the private cookie and the text produced so far *)

Record seq_file := SeqFile {
  private : nat;
  buf : string
}.

Definition newline : string := String (Ascii.ascii_of_nat 10) EmptyString.

(* seq_printf(m, "%llu %llu\n", a, b) *)
Definition seq_printf_llu_llu (m : seq_file) (a b : Z) : seq_file :=
  SeqFile (private m)
    (buf m +:+ pretty (Z.to_N (U64.wrap a)) +:+ " " +:+
     pretty (Z.to_N (U64.wrap b)) +:+ newline).

(** ** Constants of the kernel headers *)

Definition S_IRUGO : Z := 292.   (* 0444 *)
Definition S_IWUGO : Z := 146.   (* 0222 *)
Definition CPU_ONLINE : Z := 2.
Definition CPU_DEAD : Z := 7.
Definition NOTIFY_OK : Z := 1.

Section Accounting.
Context `{PF : ProcFs} (e : env).

(** *** Primitives *)

Definition raw_spin_lock_irqsave (cpu : nat) : M unit := emit (EvLock cpu).
Definition raw_spin_unlock_irqrestore (cpu : nat) : M unit := emit (EvUnlock cpu).
Definition raw_spin_lock_init (cpu : nat) : M unit := emit (EvLockInit cpu).
Definition preempt_disable : M unit := emit EvPreemptDisable.
Definition preempt_enable : M unit := emit EvPreemptEnable.

(* cpu_clock() returns an unsigned long long *)
Definition cpu_clock (cpu : nat) : M Z :=
  emit (EvClock cpu);; mret (U64.wrap (clock e cpu)).

Definition is_idle_task_curr (cpu : nat) : M bool :=
  emit (EvCurr cpu);; mret (curr_is_idle e cpu).

Definition per_cpu_load (v : pcvar) (cpu : nat) : M Z :=
  emit (EvLoad v cpu);; gets (fun s => pc_get v (cell s cpu)).

Definition per_cpu_store (v : pcvar) (cpu : nat) (x : Z) : M unit :=
  emit (EvStore v cpu);;
  modify (fun s =>
    set_percpu_data (<[cpu := pc_set v x (cell s cpu)]> (percpu_data s)) s).

(* for_each_cpu(cpu, mask): the set bits below nr_cpu_ids, in ascending order *)
Definition for_each_cpu (mask : Z) : list nat :=
  List.filter (fun cpu => Z.testbit mask (Z.of_nat cpu)) (seq 0 (nr_cpu_ids e)).

(** *** idleruntime_get *)

Definition idleruntime_get (cpu : nat) : M (Z * Z) :=
  raw_spin_lock_irqsave cpu;;
  (* Update runtime counter *)
  now ← cpu_clock cpu;
  idle ← is_idle_task_curr cpu;
  ((if idle : bool then
     acc ← per_cpu_load Idletime cpu;
     mark ← per_cpu_load Idlestart cpu;
     per_cpu_store Idletime cpu (U64.add acc (U64.sub now mark))
   else
     acc ← per_cpu_load Runtime cpu;
     mark ← per_cpu_load Idlestop cpu;
     per_cpu_store Runtime cpu (U64.add acc (U64.sub now mark))) : M unit);;
  cpuidletime ← per_cpu_load Idletime cpu;
  cpuruntime ← per_cpu_load Runtime cpu;
  raw_spin_unlock_irqrestore cpu;;
  mret (cpuidletime, cpuruntime).

(** *** idleruntime_output, idleruntime_show, idleruntime_show_all *)

Definition idleruntime_output (m : seq_file) (idletime runtime : Z) : seq_file :=
  seq_printf_llu_llu m idletime runtime.

Definition idleruntime_show (m : seq_file) : M (Z * seq_file) :=
  let cpu := private m in
  '(cpuidletime, cpuruntime) ← idleruntime_get cpu;
  mret (0, idleruntime_output m cpuidletime cpuruntime).

Fixpoint show_all_loop (cpus : list nat) (total_idletime total_runtime : Z)
    : M (Z * Z) :=
  match cpus with
  | [] => mret (total_idletime, total_runtime)
  | cpu :: rest =>
      '(cpuidletime, cpuruntime) ← idleruntime_get cpu;
      show_all_loop rest (U64.add total_idletime cpuidletime)
                         (U64.add total_runtime cpuruntime)
  end.

Definition idleruntime_show_all (m : seq_file) : M (Z * seq_file) :=
  preempt_disable;;
  '(total_idletime, total_runtime) ← show_all_loop (for_each_cpu (cpu_present_mask e)) 0 0;
  preempt_enable;;
  mret (0, idleruntime_output m total_idletime total_runtime).

(** *** idleruntime_reset1, idleruntime_reset, idleruntime_reset_all *)

Definition idleruntime_reset1 (cpu : nat) : M unit :=
  raw_spin_lock_irqsave cpu;;
  per_cpu_store Runtime cpu 0;;
  per_cpu_store Idletime cpu 0;;
  now ← cpu_clock cpu;
  per_cpu_store Idlestop cpu now;;
  per_cpu_store Idlestart cpu now;;
  raw_spin_unlock_irqrestore cpu.

(* [cpu] is PDE_DATA(file_inode(file)); the buffer is not looked at; [len]
   is a size_t and the result an ssize_t *)
Definition idleruntime_reset (cpu : nat) (len : Z) : M Z :=
  idleruntime_reset1 cpu;;
  mret (size_t_to_ssize_t (bits_per_long e) len).

Fixpoint reset_all_loop (cpus : list nat) : M unit :=
  match cpus with
  | [] => mret tt
  | cpu :: rest => idleruntime_reset1 cpu;; reset_all_loop rest
  end.

Definition idleruntime_reset_all (len : Z) : M Z :=
  preempt_disable;;
  reset_all_loop (for_each_cpu (cpu_present_mask e));;
  preempt_enable;;
  mret (size_t_to_ssize_t (bits_per_long e) len).

(** *** setup_procfiles, unset_procfiles *)

Definition set_per_cpu_dir (cpu : nat) (d : option proc_dir_entry) : M unit :=
  modify (fun s =>
    set_idleruntime_dir
      (match d with
       | Some d => <[cpu := d]> (idleruntime_dir s)
       | None => delete cpu (idleruntime_dir s)
       end) s).

Definition setup_procfiles (cpu : nat) : M unit :=
  root ← gets root_idleruntime_dir;
  idleruntime_cpudir ←
    (match root with
     | Some _ => proc_call (proc_mkdir ("cpu" +:+ pretty cpu) root)
     | None => mret None
     end : M (option proc_dir_entry));
  (match idleruntime_cpudir with
   | Some _ =>
       proc_call_ (proc_create_data "data" S_IRUGO idleruntime_cpudir
                                    idleruntime_fops (Some cpu));;
       proc_call_ (proc_create_data "reset" S_IWUGO idleruntime_cpudir
                                    idleruntime_fops (Some cpu))
   | None => mret tt
   end : M unit);;
  set_per_cpu_dir cpu idleruntime_cpudir.

Definition unset_procfiles (cpu : nat) : M unit :=
  idleruntime_cpudir ← gets (fun s => idleruntime_dir s !! cpu);
  match idleruntime_cpudir with
  | Some d =>
      proc_call_ (remove_proc_entry "reset" d);;
      proc_call_ (remove_proc_entry "data" d);;
      proc_call_ (proc_remove d);;
      set_per_cpu_dir cpu None
  | None => mret tt
  end.

(** *** idleruntime_cpu_callback *)

Definition idleruntime_cpu_callback (action : Z) (hcpu : nat) : M Z :=
  let cpu := hcpu in
  ((if action =? CPU_ONLINE then setup_procfiles cpu
    else if config_hotplug_cpu e && (action =? CPU_DEAD) then unset_procfiles cpu
    else mret tt) : M unit);;
  mret NOTIFY_OK.

(** *** idleruntime_init *)

Fixpoint init_loop (cpus : list nat) (count : Z) : M Z :=
  match cpus with
  | [] => mret count
  | cpu :: rest =>
      now ← cpu_clock cpu;
      per_cpu_store Idlestop cpu now;;
      per_cpu_store Idlestart cpu now;;
      raw_spin_lock_init cpu;;
      init_loop rest (count + 1)
  end.

Definition idleruntime_init : M Z :=
  root ← proc_call (proc_mkdir "idleruntime" None);
  modify (set_root_idleruntime_dir root);;
  (match root with
   | Some _ =>
       cpus ← init_loop (for_each_cpu (cpu_possible_mask e)) 0;
       setup_procfiles 0;;
       ((if 1 <? cpus then
           idleruntime_alldir ← proc_call (proc_mkdir "all" root);
           proc_call_ (proc_create_data "data" S_IRUGO idleruntime_alldir
                                        idleruntime_all_fops None);;
           proc_call_ (proc_create_data "reset" S_IWUGO idleruntime_alldir
                                        idleruntime_all_fops None)
         else mret tt) : M unit);;
       modify (set_notifier_registered true)
   | None => mret tt
   end : M unit);;
  mret 0.

End Accounting.

(** ** The events of one call, and the locking discipline over them *)

Section Traces.
Context `{PF : ProcFs}.

(* the events appended to the log between two states *)
Definition emitted (s s' : kstate) : list event :=
  drop (length (klog s)) (klog s').

(* Every load and store of a per-CPU variable of [cpu] happens while the
   lock of [cpu] is held; a lock is not taken twice and is released only
   when held. [held] lists the CPUs whose lock is held. *)
Fixpoint under_lock (held : list nat) (evs : list event) : bool :=
  match evs with
  | [] => match held with [] => true | _ => false end
  | EvLock c :: r => negb (existsb (Nat.eqb c) held) && under_lock (c :: held) r
  | EvUnlock c :: r =>
      existsb (Nat.eqb c) held &&
      under_lock (List.filter (fun c' => negb (Nat.eqb c c')) held) r
  | EvLoad _ c :: r | EvStore _ c :: r => existsb (Nat.eqb c) held && under_lock held r
  | _ :: r => under_lock held r
  end.

(* the per-CPU variables written, in order *)
Definition stores (evs : list event) : list (pcvar * nat) :=
  omap (fun ev => match ev with EvStore v c => Some (v, c) | _ => None end) evs.

(* what idleruntime_get does to the four variables of its CPU *)
Definition account (idle : bool) (now : Z) (c : percpu) : percpu :=
  if idle
  then pc_set Idletime (U64.add (idletime c) (U64.sub now (idlestart c))) c
  else pc_set Runtime (U64.add (runtime c) (U64.sub now (idlestop c))) c.

Definition get_events (idle : bool) (cpu : nat) : list event :=
  [EvLock cpu; EvClock cpu; EvCurr cpu] ++
  (if idle
   then [EvLoad Idletime cpu; EvLoad Idlestart cpu; EvStore Idletime cpu]
   else [EvLoad Runtime cpu; EvLoad Idlestop cpu; EvStore Runtime cpu]) ++
  [EvLoad Idletime cpu; EvLoad Runtime cpu; EvUnlock cpu].

Definition reset1_events (cpu : nat) : list event :=
  [EvLock cpu; EvStore Runtime cpu; EvStore Idletime cpu; EvClock cpu;
   EvStore Idlestop cpu; EvStore Idlestart cpu; EvUnlock cpu].

(** ** Drivers: several calls in a row *)

(* successive reads of one CPU, each in the environment of its own instant *)
Fixpoint get_seq (cpu : nat) (es : list env) : M (list (Z * Z)) :=
  match es with
  | [] => mret []
  | e :: rest =>
      r ← idleruntime_get e cpu;
      rs ← get_seq cpu rest;
      mret (r :: rs)
  end.

(* no addition of [get_seq] exceeds 64 bits *)
Fixpoint no_wrap (cpu : nat) (c : percpu) (es : list env) : Prop :=
  match es with
  | [] => True
  | e :: rest =>
      let now := U64.wrap (clock e cpu) in
      (if curr_is_idle e cpu
       then idletime c + (now - idlestart c)
       else runtime c + (now - idlestop c)) < U64.modulus /\
      no_wrap cpu (account (curr_is_idle e cpu) now c) rest
  end.

Definition Zsum (l : list Z) : Z := foldr Z.add 0 l.

End Traces.

(** ** A small proc filesystem to run the code on *)

Module SimpleProcFs.

Inductive node :=
  | Dir
  | File (mode : Z) (fops : file_operations) (data : option nat).

(** Modelled from the spec: the proc filesystem (proc_mkdir,
    proc_create_data, remove_proc_entry, proc_remove) is kernel code
    outside this file.  It is modelled as the key-value surface of the
    interface section: a map from paths below /proc to directories and
    to entries carrying a mode, file operations and a data cookie.  A
    name is registered once under a parent; registering it again fails
    and leaves the tree as it is. *)
Definition tree := gmap (list string) node.

Definition child (parent : option (list string)) (name : string) : list string :=
  default [] parent ++ [name].

Definition mkdir (name : string) (parent : option (list string)) (t : tree)
    : option (list string) * tree :=
  let p := child parent name in
  match t !! p with
  | Some _ => (None, t)
  | None => (Some p, <[p := Dir]> t)
  end.

Definition create_data (name : string) (mode : Z) (parent : option (list string))
    (fops : file_operations) (data : option nat) (t : tree) : tree :=
  let p := child parent name in
  match t !! p with
  | Some _ => t
  | None => <[p := File mode fops data]> t
  end.

Definition remove_entry (name : string) (parent : list string) (t : tree) : tree :=
  delete (parent ++ [name]) t.

Definition remove (d : list string) (t : tree) : tree :=
  filter (fun kv => ¬ d `prefix_of` kv.1) t.

#[export] Instance simple_procfs : ProcFs := {|
  procfs := tree;
  proc_dir_entry := list string;
  proc_mkdir := mkdir;
  proc_create_data := create_data;
  remove_proc_entry := remove_entry;
  proc_remove := remove
|}.

(* the state before idleruntime_init: zeroed static storage, empty /proc *)
Definition boot : kstate := KState _ ∅ ∅ None ∅ false [].

(* a state in which CPU [cpu] holds [c] and nothing else is set up *)
Definition with_cell (cpu : nat) (c : percpu) : kstate :=
  KState _ {[cpu := c]} ∅ None ∅ false [].

Inductive core_error := UnknownCoreError.

(* the two entries of core [id] *)
Definition core_path (id : nat) (name : string) : list string :=
  ["idleruntime"; "cpu" +:+ pretty id; name].

(** Modelled from the spec: the way from a request for a core id to the
    handlers of this file goes through procfs, which is not part of it.
    Following the operations of the accounting domain, [read_core] looks up
    the [data] entry of the core, fails with [UnknownCoreError] when there
    is none, and otherwise opens it (a fresh seq_file whose private field
    is the entry's cookie) and returns the text that [idleruntime_show]
    produces. *)
Definition read_core (e : env) (id : nat) : M (core_error + string) :=
  entry ← gets (fun s => proc s !! core_path id "data");
  match entry with
  | Some (File _ idleruntime_fops (Some cpu)) =>
      r ← idleruntime_show e (SeqFile cpu "");
      mret (inr (buf r.2))
  | _ => mret (inl UnknownCoreError)
  end.

(** Modelled from the spec: [reset_core] is symmetric.  It looks up the
    [reset] entry of the core, fails with [UnknownCoreError] when there is
    none, and otherwise hands the write to [idleruntime_reset] and returns
    its result. *)
Definition reset_core (e : env) (id : nat) (len : Z) : M (core_error + Z) :=
  entry ← gets (fun s => proc s !! core_path id "reset");
  match entry with
  | Some (File _ idleruntime_fops (Some cpu)) =>
      n ← idleruntime_reset e cpu len;
      mret (inr n)
  | _ => mret (inl UnknownCoreError)
  end.

End SimpleProcFs.

(** ** The requests the file serves

    What reaches the file from outside: reads of a CPU's [data] entry and of
    the aggregate one (a fresh seq_file from single_open, whose private
    field is the entry's data cookie), writes to the [reset] entries, and
    CPU notifications.  Each request comes with the environment of its
    instant. *)

Inductive request :=
  | ReadData (cpu : nat)
  | WriteReset (cpu : nat) (len : Z)
  | ReadAll
  | WriteResetAll (len : Z)
  | Notify (action : Z) (hcpu : nat).

Definition is_reset (r : request) : bool :=
  match r with
  | WriteReset _ _ | WriteResetAll _ => true
  | _ => false
  end.

Definition is_notify (r : request) : bool :=
  match r with
  | Notify _ _ => true
  | _ => false
  end.

Section Requests.
Context `{PF : ProcFs}.

Definition serve (e : env) (r : request) : M unit :=
  match r with
  | ReadData cpu => idleruntime_show e (SeqFile cpu "");; mret tt
  | WriteReset cpu len => idleruntime_reset e cpu len;; mret tt
  | ReadAll => idleruntime_show_all e (SeqFile 0 "");; mret tt
  | WriteResetAll len => idleruntime_reset_all e len;; mret tt
  | Notify action hcpu => idleruntime_cpu_callback e action hcpu;; mret tt
  end.

Fixpoint serve_all (rs : list (env * request)) : M unit :=
  match rs with
  | [] => mret tt
  | (e, r) :: rest => serve e r;; serve_all rest
  end.

(* the proc side of the state: handles, root, tree and notifier flag *)
Definition same_proc_side (s s' : kstate) : Prop :=
  idleruntime_dir s' = idleruntime_dir s /\
  root_idleruntime_dir s' = root_idleruntime_dir s /\
  proc s' = proc s /\
  notifier_registered s' = notifier_registered s.

(* the largest number of locks held at once along a trace that starts with
   [n] of them held *)
Fixpoint peak_locks (n : nat) (evs : list event) : nat :=
  match evs with
  | [] => n
  | EvLock _ :: r => Nat.max n (peak_locks (S n) r)
  | EvUnlock _ :: r => Nat.max n (peak_locks (Nat.pred n) r)
  | _ :: r => peak_locks n r
  end.

(* the events of a scan over [cpus] that reads, and of one that resets *)
Definition scan_events (e : env) (cpus : list nat) : list event :=
  flat_map (fun cpu => get_events (curr_is_idle e cpu) cpu) cpus.

Definition reset_scan_events (cpus : list nat) : list event :=
  flat_map reset1_events cpus.

(* is [cpu] visited by for_each_cpu over [mask]? *)
Definition cpu_in_mask (e : env) (mask : Z) (cpu : nat) : bool :=
  (cpu <? nr_cpu_ids e)%nat && Z.testbit mask (Z.of_nat cpu).

(* the time a CPU spent in its current state between two instants *)
Definition elapsed (e e' : env) (cpu : nat) : Z :=
  U64.wrap (clock e' cpu) - U64.wrap (clock e cpu).

(* what the reads of [es] add to the counters [c] of [cpu]: each read adds
   the distance from the mark of the state the CPU is in to its clock value *)
Definition added_idle (cpu : nat) (c : percpu) (es : list env) : Z :=
  Zsum ((fun e => if curr_is_idle e cpu
                  then U64.wrap (clock e cpu) - idlestart c else 0) <$> es).

Definition added_run (cpu : nat) (c : percpu) (es : list env) : Z :=
  Zsum ((fun e => if curr_is_idle e cpu
                  then 0 else U64.wrap (clock e cpu) - idlestop c) <$> es).

End Requests.

(** Unfold the monad and the primitives down to state transformers. *)
Ltac run_m :=
  cbv [mbind M_bind bind mret M_ret ret
       raw_spin_lock_irqsave raw_spin_unlock_irqrestore raw_spin_lock_init
       preempt_disable preempt_enable cpu_clock is_idle_task_curr
       per_cpu_load per_cpu_store set_per_cpu_dir proc_call proc_call_
       emit modify gets
       set_percpu_data set_idleruntime_dir set_root_idleruntime_dir set_proc
       set_notifier_registered set_klog cell
       percpu_data idleruntime_dir root_idleruntime_dir proc notifier_registered klog
       pc_get pc_set idlestart idlestop idletime runtime fst snd].

(** * Facts *)

(** ** 64-bit arithmetic *)

Module U64Facts.
Import U64.

Lemma modulus_pos : 0 < modulus.
Proof. reflexivity. Qed.

Lemma wrap_range z : in_range (wrap z).
Proof. apply Z.mod_pos_bound, modulus_pos. Qed.

Lemma wrap_small z : in_range z -> wrap z = z.
Proof. intros Hz. apply Z.mod_small, Hz. Qed.

Lemma wrap_wrap z : wrap (wrap z) = wrap z.
Proof. apply wrap_small, wrap_range. Qed.

Lemma add_sub a now mark : add a (sub now mark) = wrap (a + (now - mark)).
Proof. unfold add, sub, wrap. apply Zplus_mod_idemp_r. Qed.

Lemma add_wrap_l a b : add (wrap a) b = wrap (a + b).
Proof. unfold add, wrap. apply Zplus_mod_idemp_l. Qed.

Lemma add_wrap_r a b : add a (wrap b) = wrap (a + b).
Proof. unfold add, wrap. apply Zplus_mod_idemp_r. Qed.

Lemma sub_self a : sub a a = 0.
Proof. unfold sub. rewrite Z.sub_diag. reflexivity. Qed.

Lemma sub_le a b : in_range a -> in_range b -> b <= a -> sub a b = a - b.
Proof. unfold in_range. intros Ha Hb Hle. apply wrap_small. unfold in_range. lia. Qed.

Lemma wrap_neg z : - modulus <= z < 0 -> wrap z = modulus + z.
Proof.
  intros Hz. unfold wrap. symmetry. apply (Z.mod_unique_pos _ _ (-1)); lia.
Qed.

End U64Facts.

(** ** size_t returned as ssize_t *)

Lemma pow2_double w : 0 < w -> 2 ^ w = 2 * 2 ^ (w - 1).
Proof.
  intros Hw. replace w with (Z.succ (w - 1)) at 1 by lia.
  apply Z.pow_succ_r. lia.
Qed.

Lemma ssize_small w len :
  0 <= len < 2 ^ (w - 1) -> size_t_to_ssize_t w len = len.
Proof.
  intros Hlen. destruct (Z_le_gt_dec w 0) as [Hw|Hw].
  - rewrite Z.pow_neg_r in Hlen by lia. lia.
  - unfold size_t_to_ssize_t. pose proof (pow2_double w ltac:(lia)) as H2.
    rewrite Z.mod_small by lia. cbn zeta.
    destruct (Z.ltb_spec len (2 ^ (w - 1))); lia.
Qed.

Lemma ssize_large w len :
  0 < w -> 2 ^ (w - 1) <= len < 2 ^ w -> size_t_to_ssize_t w len = len - 2 ^ w.
Proof.
  intros Hw Hlen. unfold size_t_to_ssize_t.
  assert (0 < 2 ^ (w - 1)) by (apply Z.pow_pos_nonneg; lia).
  rewrite Z.mod_small by lia. cbn zeta.
  destruct (Z.ltb_spec len (2 ^ (w - 1))); lia.
Qed.

(** ** What one call does *)

Section Runs.
Context `{PF : ProcFs}.

Lemma cell_insert_eq cpu c (s : kstate) :
  cell (set_percpu_data (<[cpu := c]> (percpu_data s)) s) cpu = c.
Proof. run_m. by rewrite lookup_insert_eq. Qed.

Lemma cell_insert_ne cpu cpu' c (s : kstate) :
  cpu ≠ cpu' -> cell (set_percpu_data (<[cpu := c]> (percpu_data s)) s) cpu' = cell s cpu'.
Proof. intros Hne. run_m. by rewrite lookup_insert_ne. Qed.

Lemma idleruntime_get_run (e : env) cpu (s : kstate) :
  idleruntime_get e cpu s =
    let c' := account (curr_is_idle e cpu) (U64.wrap (clock e cpu)) (cell s cpu) in
    ((idletime c', runtime c'),
     set_klog (klog s ++ get_events (curr_is_idle e cpu) cpu)
              (set_percpu_data (<[cpu := c']> (percpu_data s)) s)).
Proof.
  unfold idleruntime_get, account, get_events.
  run_m. destruct (curr_is_idle e cpu); run_m.
  all: rewrite !lookup_insert_eq, <- !app_assoc; reflexivity.
Qed.

Lemma idleruntime_reset1_run (e : env) cpu (s : kstate) :
  idleruntime_reset1 e cpu s =
    let now := U64.wrap (clock e cpu) in
    (tt, set_klog (klog s ++ reset1_events cpu)
                  (set_percpu_data (<[cpu := PerCpu now now 0 0]> (percpu_data s)) s)).
Proof.
  unfold idleruntime_reset1, reset1_events. run_m.
  rewrite !lookup_insert_eq, !insert_insert_eq, <- !app_assoc. reflexivity.
Qed.

Lemma emitted_app (s s' : kstate) evs :
  klog s' = klog s ++ evs -> emitted s s' = evs.
Proof. unfold emitted. intros ->. apply drop_app_length. Qed.

(** Projections of one [idleruntime_get]. *)

Lemma get_result (e : env) cpu (s : kstate) :
  (idleruntime_get e cpu s).1 =
    let c' := account (curr_is_idle e cpu) (U64.wrap (clock e cpu)) (cell s cpu) in
    (idletime c', runtime c').
Proof. by rewrite idleruntime_get_run. Qed.

Lemma get_cell (e : env) cpu (s : kstate) :
  cell (idleruntime_get e cpu s).2 cpu =
    account (curr_is_idle e cpu) (U64.wrap (clock e cpu)) (cell s cpu).
Proof. rewrite idleruntime_get_run. cbn. apply cell_insert_eq. Qed.

Lemma get_cell_other (e : env) cpu cpu' (s : kstate) :
  cpu ≠ cpu' -> cell (idleruntime_get e cpu s).2 cpu' = cell s cpu'.
Proof. intros Hne. rewrite idleruntime_get_run. cbn. by apply cell_insert_ne. Qed.

Lemma get_emitted (e : env) cpu (s : kstate) :
  emitted s (idleruntime_get e cpu s).2 = get_events (curr_is_idle e cpu) cpu.
Proof. apply emitted_app. by rewrite idleruntime_get_run. Qed.

(* the result of a read is a function of the cell of its CPU alone *)
Lemma get_result_cell (e : env) cpu (s1 s2 : kstate) :
  cell s1 cpu = cell s2 cpu ->
  (idleruntime_get e cpu s1).1 = (idleruntime_get e cpu s2).1.
Proof. intros Heq. by rewrite !get_result, Heq. Qed.

Lemma under_lock_get idle cpu : under_lock [] (get_events idle cpu) = true.
Proof. destruct idle; cbn; rewrite !Nat.eqb_refl; reflexivity. Qed.

Lemma under_lock_reset1 cpu : under_lock [] (reset1_events cpu) = true.
Proof. cbn; rewrite !Nat.eqb_refl; reflexivity. Qed.

End Runs.


(** ** The proc side leaves the counters alone *)

Section ProcSide.
Context `{PF : ProcFs}.

Lemma setup_procfiles_percpu cpu (s : kstate) :
  percpu_data (setup_procfiles cpu s).2 = percpu_data s.
Proof.
  destruct s as [pd dirs [root|] p reg log]; unfold setup_procfiles; run_m;
    [|reflexivity].
  destruct (proc_mkdir _ _ _) as [[d|] p']; reflexivity.
Qed.

Lemma unset_procfiles_percpu cpu (s : kstate) :
  percpu_data (unset_procfiles cpu s).2 = percpu_data s.
Proof.
  destruct s as [pd dirs root p reg log]; unfold unset_procfiles; run_m.
  destruct (dirs !! cpu) as [d|]; reflexivity.
Qed.

Lemma callback_percpu (e : env) action cpu (s : kstate) :
  percpu_data (idleruntime_cpu_callback e action cpu s).2 = percpu_data s.
Proof.
  unfold idleruntime_cpu_callback. run_m.
  destruct (action =? CPU_ONLINE).
  - pose proof (setup_procfiles_percpu cpu s) as H.
    destruct (setup_procfiles cpu s) as [u s1]. exact H.
  - destruct (config_hotplug_cpu e && (action =? CPU_DEAD)).
    + pose proof (unset_procfiles_percpu cpu s) as H.
      destruct (unset_procfiles cpu s) as [u s1]. exact H.
    + reflexivity.
Qed.

Lemma callback_result (e : env) action cpu (s : kstate) :
  (idleruntime_cpu_callback e action cpu s).1 = NOTIFY_OK.
Proof.
  unfold idleruntime_cpu_callback. run_m.
  destruct (action =? CPU_ONLINE).
  - destruct (setup_procfiles cpu s) as [u s1]. reflexivity.
  - destruct (config_hotplug_cpu e && (action =? CPU_DEAD)).
    + destruct (unset_procfiles cpu s) as [u s1]. reflexivity.
    + reflexivity.
Qed.

Lemma callback_cell (e : env) action cpu (s : kstate) cpu' :
  cell (idleruntime_cpu_callback e action cpu s).2 cpu' = cell s cpu'.
Proof. unfold cell. by rewrite callback_percpu. Qed.

End ProcSide.

(** ** The aggregate scan *)

Section Scan.
Context `{PF : ProcFs} (e : env).

Lemma for_each_cpu_NoDup mask : NoDup (for_each_cpu e mask).
Proof.
  unfold for_each_cpu. apply NoDup_ListNoDup, List.NoDup_filter, List.seq_NoDup.
Qed.

Lemma foldl_add_wrap a l :
  foldl U64.add (U64.wrap a) l = U64.wrap (a + Zsum l).
Proof.
  revert a. induction l as [|x l IH]; intros a; cbn [foldl].
  - unfold Zsum; cbn. by rewrite Z.add_0_r.
  - rewrite U64Facts.add_wrap_l, IH. f_equal. unfold Zsum; cbn [foldr]. lia.
Qed.

Lemma show_all_loop_foldl cpus :
  NoDup cpus ->
  forall (s0 s : kstate) ti tr,
    (forall c, c ∈ cpus -> cell s c = cell s0 c) ->
    (show_all_loop e cpus ti tr s).1 =
      (foldl U64.add ti ((fun c => (idleruntime_get e c s0).1.1) <$> cpus),
       foldl U64.add tr ((fun c => (idleruntime_get e c s0).1.2) <$> cpus)).
Proof.
  induction 1 as [|c cpus Hnotin Hnodup IH]; intros s0 s ti tr Hcells.
  - reflexivity.
  - cbn [show_all_loop fmap list_fmap foldl]. unfold mbind, M_bind, bind.
    pose proof (get_result_cell e c s s0 (Hcells c ltac:(left))) as Hres.
    assert (Hrest : forall c', c' ∈ cpus -> cell (idleruntime_get e c s).2 c' = cell s0 c').
    { intros c' Hin. rewrite get_cell_other by (intros ->; contradiction).
      apply Hcells. by right. }
    destruct (idleruntime_get e c s) as [[i r] s1]. cbn in Hres, Hrest.
    rewrite (IH s0 s1 _ _ Hrest), <- Hres. reflexivity.
Qed.

End Scan.

(** ** Several reads in a row *)

Section Successive.
Context `{PF : ProcFs}.

Lemma get_seq_cons cpu e es (s : kstate) :
  (get_seq cpu (e :: es) s).1 =
    (idleruntime_get e cpu s).1 :: (get_seq cpu es (idleruntime_get e cpu s).2).1.
Proof.
  cbn [get_seq]. unfold mbind, M_bind, bind, mret, M_ret, ret.
  destruct (idleruntime_get e cpu s) as [r s1]. cbn.
  destruct (get_seq cpu es s1) as [rs s2]. reflexivity.
Qed.

(* what successive reads return is a function of the cell of their CPU *)
Lemma get_seq_cell cpu es :
  forall (s1 s2 : kstate),
    cell s1 cpu = cell s2 cpu ->
    (get_seq cpu es s1).1 = (get_seq cpu es s2).1.
Proof.
  induction es as [|e es IH]; intros s1 s2 Heq; [reflexivity|].
  rewrite !get_seq_cons. f_equal.
  - by apply get_result_cell.
  - apply IH. by rewrite !get_cell, Heq.
Qed.

(* one addition that stays within 64 bits and starts from a mark the clock
   has reached *)
Lemma account_grows (idle : bool) now c :
  wf_percpu c ->
  U64.in_range now ->
  idlestart c <= now -> idlestop c <= now ->
  (if idle then idletime c + (now - idlestart c)
   else runtime c + (now - idlestop c)) < U64.modulus ->
  let c' := account idle now c in
  wf_percpu c' /\ idlestart c' = idlestart c /\ idlestop c' = idlestop c /\
  idletime c <= idletime c' /\ runtime c <= runtime c'.
Proof.
  intros (Hstart & Hstop & Hidle & Hrun) Hnow Hs Hp Hfit.
  unfold wf_percpu, account, U64.in_range in *.
  destruct idle; cbn; rewrite U64Facts.add_sub, U64Facts.wrap_small;
    unfold U64.in_range; repeat split; lia.
Qed.

Lemma get_seq_above cpu es :
  forall (s : kstate),
    let c := cell s cpu in
    wf_percpu c ->
    Forall (fun e => idlestart c <= U64.wrap (clock e cpu) /\
                     idlestop c <= U64.wrap (clock e cpu)) es ->
    no_wrap cpu c es ->
    Forall (fun r : Z * Z => idletime c <= r.1 /\ runtime c <= r.2)
           (get_seq cpu es s).1.
Proof.
  induction es as [|e es IH]; intros s c Hwf Hclk Hfit.
  - constructor.
  - rewrite get_seq_cons.
    apply Forall_cons in Hclk as [[Hs Hp] Hclk]. destruct Hfit as [Hfit Hrest].
    destruct (account_grows (curr_is_idle e cpu) (U64.wrap (clock e cpu)) c Hwf
                (U64Facts.wrap_range _) Hs Hp Hfit) as (Hwf' & Es & Ep & Hi & Hr).
    specialize (IH (idleruntime_get e cpu s).2). cbn zeta in IH.
    rewrite get_cell in IH. fold c in IH. rewrite Es, Ep in IH.
    specialize (IH Hwf' Hclk Hrest).
    constructor.
    + rewrite get_result. cbn. fold c. auto.
    + eapply Forall_impl; [exact IH|]. cbn. intros r [? ?]. lia.
Qed.

End Successive.

(** * The accounting properties *)

Import SimpleProcFs.

(** ** Reading: [idleruntime_get] *)

(** C4: [idleruntime_get] runs between taking and releasing the lock of its
    CPU.  When the CPU is running its idle task it adds [now - idlestart] to
    [idletime], otherwise it adds [now - idlestop] to [runtime] (64-bit
    arithmetic); the accumulator of the state the CPU is not in keeps its
    value, so that interval is not closed; the pair of accumulators is what
    the call returns. *)
Theorem idleruntime_get_accounts_current_state `{PF : ProcFs} (e : env) cpu (s : kstate) :
  let now := U64.wrap (clock e cpu) in
  let c := cell s cpu in
  let r := (idleruntime_get e cpu s).1 in
  let s' := (idleruntime_get e cpu s).2 in
  let c' := cell s' cpu in
  (if curr_is_idle e cpu
   then idletime c' = U64.wrap (idletime c + (now - idlestart c)) /\
        runtime c' = runtime c
   else runtime c' = U64.wrap (runtime c + (now - idlestop c)) /\
        idletime c' = idletime c) /\
  r = (idletime c', runtime c') /\
  emitted s s' = get_events (curr_is_idle e cpu) cpu /\
  under_lock [] (emitted s s') = true.
Proof.
  intros now c r s' c'. subst r c' s'.
  rewrite get_cell, get_result, get_emitted, under_lock_get.
  fold now c. unfold account.
  destruct (curr_is_idle e cpu); cbn; rewrite U64Facts.add_sub; auto.
Qed.

(** C10: a call of [idleruntime_get] changes neither [idlestart] nor
    [idlestop] and modifies exactly one accumulator, that of the state the
    CPU is in: its only store goes there, the accumulator becomes its old
    value plus [now - mark] in 64-bit arithmetic, which is a different value
    whenever [now - mark] is not a multiple of 2^64, and the other
    accumulator keeps its value.  The variables of the other CPUs are not
    touched either. *)
Theorem idleruntime_get_frame `{PF : ProcFs} (e : env) cpu (s : kstate) :
  let now := U64.wrap (clock e cpu) in
  let s' := (idleruntime_get e cpu s).2 in
  let c := cell s cpu in
  let c' := cell s' cpu in
  let mark := if curr_is_idle e cpu then idlestart c else idlestop c in
  let acc := if curr_is_idle e cpu then idletime c else runtime c in
  let acc' := if curr_is_idle e cpu then idletime c' else runtime c' in
  idlestart c' = idlestart c /\
  idlestop c' = idlestop c /\
  stores (emitted s s') = [(if curr_is_idle e cpu then Idletime else Runtime, cpu)] /\
  acc' = U64.wrap (acc + (now - mark)) /\
  (U64.in_range acc -> U64.wrap (now - mark) <> 0 -> acc' <> acc) /\
  (if curr_is_idle e cpu then runtime c' = runtime c else idletime c' = idletime c) /\
  (forall cpu', cpu <> cpu' -> cell s' cpu' = cell s cpu').
Proof.
  intros now s' c c' mark acc acc'.
  assert (Hacc : acc' = U64.wrap (acc + (now - mark))).
  { subst acc' c' s' acc mark. rewrite get_cell. fold now c. unfold account.
    destruct (curr_is_idle e cpu); cbn; apply U64Facts.add_sub. }
  assert (Hmoves : U64.in_range acc -> U64.wrap (now - mark) <> 0 -> acc' <> acc).
  { intros Hrange Hdelta Heq. apply Hdelta. rewrite Hacc in Heq.
    unfold U64.wrap in *. pose proof U64Facts.modulus_pos as Hpos.
    pose proof (Z.div_mod (acc + (now - mark)) U64.modulus ltac:(lia)) as Hdiv.
    rewrite Heq in Hdiv.
    replace (now - mark) with ((acc + (now - mark)) / U64.modulus * U64.modulus)
      by lia.
    apply Z.mod_mul. lia. }
  subst c' s'. rewrite get_cell, get_emitted. fold now c. unfold account.
  split; [by destruct (curr_is_idle e cpu)|].
  split; [by destruct (curr_is_idle e cpu)|].
  split; [by destruct (curr_is_idle e cpu)|].
  split; [exact Hacc|]. split; [exact Hmoves|].
  split; [by destruct (curr_is_idle e cpu)|].
  intros cpu' Hne. by apply get_cell_other.
Qed.

Lemma idleruntime_get_frame_witness :
  let e := Env (fun _ => 100) (fun _ => false) 2 3 3 true in
  let s := with_cell 0 (PerCpu 10 20 30 40) in
  let s' := (idleruntime_get e 0%nat s).2 in
  idlestart (cell s' 0) = 10 /\
  idlestop (cell s' 0) = 20 /\
  stores (emitted s s') = [(Runtime, 0%nat)] /\
  runtime (cell s' 0) = 120 /\
  runtime (cell s' 0) <> 40 /\
  idletime (cell s' 0) = 30 /\
  (forall cpu', 0%nat <> cpu' -> cell s' cpu' = cell s cpu').
Proof.
  destruct (idleruntime_get_frame (Env (fun _ => 100) (fun _ => false) 2 3 3 true)
              0%nat (with_cell 0 (PerCpu 10 20 30 40)))
    as (Hstart & Hstop & Hstores & Hacc & Hmoves & Hother & Hcpus).
  split; [exact Hstart|]. split; [exact Hstop|]. split; [exact Hstores|].
  split; [exact Hacc|].
  split; [apply Hmoves; vm_compute; [split|]; congruence|].
  split; [exact Hother | exact Hcpus].
Defined.

(** C3 does not hold: there is no clamp.  With the mark at 10 and the clock
    at 5 the idle accumulator goes from 0 to 2^64 - 5. *)
Lemma clock_behind_mark_is_not_clamped :
  let e := Env (fun _ => 5) (fun _ => true) 1 1 1 true in
  let s := with_cell 0 (PerCpu 10 0 0 0) in
  clock e 0%nat < idlestart (cell s 0) /\
  idletime (cell s 0) = 0 /\
  (idleruntime_get e 0%nat s).1 = (18446744073709551611, 0).
Proof. vm_compute. auto. Qed.

(** C3, amended: when the clock value sampled is below the mark of the
    state the CPU is in, [idleruntime_get] still adds [(now - mark) mod 2^64]:
    the accumulator never keeps its value; it drops by [mark - now], and
    wraps to [2^64 + acc - (mark - now)] when it is smaller than that. *)
Theorem idleruntime_get_clock_behind_mark `{PF : ProcFs} (e : env) cpu (s : kstate) :
  let now := U64.wrap (clock e cpu) in
  let c := cell s cpu in
  let c' := cell (idleruntime_get e cpu s).2 cpu in
  let mark := if curr_is_idle e cpu then idlestart c else idlestop c in
  let acc := if curr_is_idle e cpu then idletime c else runtime c in
  let acc' := if curr_is_idle e cpu then idletime c' else runtime c' in
  wf_percpu c ->
  now < mark ->
  acc' <> acc /\
  (mark - now <= acc -> acc' = acc - (mark - now)) /\
  (acc < mark - now -> acc' = U64.modulus + acc - (mark - now)).
Proof.
  intros now c c' mark acc acc' (Hstart & Hstop & Hidle & Hrun) Hlt.
  assert (Hnow : U64.in_range now) by apply U64Facts.wrap_range.
  assert (Hacc' : acc' = U64.wrap (acc + (now - mark))).
  { subst acc' c' acc mark. rewrite get_cell. fold now c. unfold account.
    destruct (curr_is_idle e cpu); cbn; apply U64Facts.add_sub. }
  assert (Hmark : U64.in_range mark /\ U64.in_range acc).
  { subst mark acc. destruct (curr_is_idle e cpu); auto. }
  destruct Hmark as [Hmark Hacc]. unfold U64.in_range in *.
  assert (Hle : mark - now <= acc -> acc' = acc - (mark - now)).
  { intros H. rewrite Hacc', U64Facts.wrap_small; unfold U64.in_range; lia. }
  assert (Hgt : acc < mark - now -> acc' = U64.modulus + acc - (mark - now)).
  { intros H. rewrite Hacc', U64Facts.wrap_neg; lia. }
  repeat split; auto.
  destruct (Z_le_gt_dec (mark - now) acc); [rewrite Hle | rewrite Hgt]; lia.
Qed.

Lemma idleruntime_get_clock_behind_mark_witness :
  let e := Env (fun _ => 5) (fun _ => true) 1 1 1 true in
  let s := with_cell 0 (PerCpu 10 0 3 0) in
  let acc' := idletime (cell (idleruntime_get e 0%nat s).2 0) in
  wf_percpu (cell s 0) /\
  U64.wrap (clock e 0%nat) < idlestart (cell s 0) /\
  acc' <> 3 /\
  (10 - 5 <= 3 -> acc' = 3 - (10 - 5)) /\
  (3 < 10 - 5 -> acc' = U64.modulus + 3 - (10 - 5)).
Proof.
  assert (Hwf : wf_percpu (cell (with_cell 0 (PerCpu 10 0 3 0)) 0)).
  { vm_compute. intuition congruence. }
  assert (Hlt : U64.wrap 5 < 10) by reflexivity.
  split; [exact Hwf|]. split; [exact Hlt|].
  exact (idleruntime_get_clock_behind_mark
           (Env (fun _ => 5) (fun _ => true) 1 1 1 true) 0%nat
           (with_cell 0 (PerCpu 10 0 3 0)) Hwf Hlt).
Defined.

(** ** Resetting: [idleruntime_reset1] *)

(** X19: [idleruntime_reset1] zeroes both accumulators and sets both marks
    to the clock value it samples, all between taking and releasing the
    lock of its CPU.  The first read after it returns (0, 0) at the same
    clock value and otherwise the time elapsed since the reset in the
    accumulator of the current state and 0 in the other.  Nothing that the
    counters held before the reset shows in any later read. *)
Theorem idleruntime_reset1_restarts_accounting `{PF : ProcFs}
    (e e' : env) cpu (s : kstate) :
  let now := U64.wrap (clock e cpu) in
  let now' := U64.wrap (clock e' cpu) in
  let s1 := (idleruntime_reset1 e cpu s).2 in
  let r := (idleruntime_get e' cpu s1).1 in
  cell s1 cpu = PerCpu now now 0 0 /\
  emitted s s1 = reset1_events cpu /\
  under_lock [] (emitted s s1) = true /\
  (now' = now -> r = (0, 0)) /\
  (now <= now' ->
   r = if curr_is_idle e' cpu then (now' - now, 0) else (0, now' - now)) /\
  (forall (s' : kstate) es,
     (get_seq cpu es s1).1 = (get_seq cpu es (idleruntime_reset1 e cpu s').2).1).
Proof.
  intros now now' s1 r.
  assert (Hcell : cell s1 cpu = PerCpu now now 0 0).
  { subst s1. rewrite idleruntime_reset1_run. apply cell_insert_eq. }
  assert (Hev : emitted s s1 = reset1_events cpu).
  { apply emitted_app. subst s1. by rewrite idleruntime_reset1_run. }
  assert (Hr : r = if curr_is_idle e' cpu
                   then (U64.sub now' now, 0) else (0, U64.sub now' now)).
  { subst r. rewrite get_result, Hcell. fold now'. unfold account.
    destruct (curr_is_idle e' cpu); cbn;
      by rewrite U64Facts.add_sub, Z.add_0_l. }
  repeat split; auto.
  - rewrite Hev. apply under_lock_reset1.
  - intros ->. rewrite Hr, U64Facts.sub_self. by destruct (curr_is_idle e' cpu).
  - intros Hle.
    rewrite Hr, U64Facts.sub_le by (try apply U64Facts.wrap_range; assumption).
    reflexivity.
  - intros s' es. apply get_seq_cell. rewrite Hcell.
    rewrite idleruntime_reset1_run. symmetry. apply cell_insert_eq.
Qed.

Lemma idleruntime_reset1_restarts_accounting_witness :
  let e := Env (fun _ => 300) (fun _ => false) 1 1 1 true in
  let e' := Env (fun _ => 350) (fun _ => false) 1 1 1 true in
  let s := with_cell 0 (PerCpu 0 100 100 200) in
  let s1 := (idleruntime_reset1 e 0%nat s).2 in
  let r := (idleruntime_get e' 0%nat s1).1 in
  cell s1 0 = PerCpu 300 300 0 0 /\
  emitted s s1 = reset1_events 0 /\
  under_lock [] (emitted s s1) = true /\
  (U64.wrap 350 = U64.wrap 300 -> r = (0, 0)) /\
  (U64.wrap 300 <= U64.wrap 350 -> r = (0, 50)) /\
  (forall (s' : kstate) es,
     (get_seq 0 es s1).1 = (get_seq 0 es (idleruntime_reset1 e 0%nat s').2).1).
Proof.
  exact (idleruntime_reset1_restarts_accounting
           (Env (fun _ => 300) (fun _ => false) 1 1 1 true)
           (Env (fun _ => 350) (fun _ => false) 1 1 1 true)
           0%nat (with_cell 0 (PerCpu 0 100 100 200))).
Defined.

(** C5, the code at the failing input: CPU 0, busy throughout, is reset at
    clock 300 and read at clock 350 and at clock 400.  The first read
    returns a run total of 50, the time elapsed since the reset; the second
    returns 150 when 100 have elapsed since the reset. *)
Theorem later_read_after_reset_exceeds_elapsed_time :
  let at300 := Env (fun _ => 300) (fun _ => false) 1 1 1 true in
  let at350 := Env (fun _ => 350) (fun _ => false) 1 1 1 true in
  let at400 := Env (fun _ => 400) (fun _ => false) 1 1 1 true in
  let s0 := (idleruntime_reset1 at300 0%nat (with_cell 0 (PerCpu 0 100 100 200))).2 in
  let s1 := (idleruntime_get at350 0%nat s0).2 in
  cell s0 0 = PerCpu 300 300 0 0 /\
  (idleruntime_get at350 0%nat s0).1 = (0, 50) /\
  (idleruntime_get at400 0%nat s1).1 = (0, 150) /\
  clock at400 0%nat - clock at300 0%nat = 100.
Proof. vm_compute. auto. Qed.

(** ** Repeated reads *)

(** C1, the code at the failing input: CPU 0 is reset at clock 0 and then
    read twice at clock 10 while idle.  The first read returns 10 idle, the
    second 20: the ten units are counted again, and both marks are still 0. *)
Theorem repeated_read_counts_interval_twice :
  let at0 := Env (fun _ => 0) (fun _ => true) 1 1 1 true in
  let at10 := Env (fun _ => 10) (fun _ => true) 1 1 1 true in
  let s0 := (idleruntime_reset1 at0 0%nat boot).2 in
  let s1 := (idleruntime_get at10 0%nat s0).2 in
  (idleruntime_get at10 0%nat s0).1 = (10, 0) /\
  (idleruntime_get at10 0%nat s1).1 = (20, 0) /\
  idlestart (cell s1 0) = 0 /\
  idlestop (cell s1 0) = 0.
Proof. vm_compute. auto. Qed.

(** C2, the code at the failing input: CPU 0 is reset at clock 0 and read
    at clock 10 and at clock 20, idle throughout.  The totals are (10, 0)
    and (30, 0): they grow by 20 while the clock advanced by 10. *)
Theorem successive_reads_exceed_elapsed_time :
  let at0 := Env (fun _ => 0) (fun _ => true) 1 1 1 true in
  let at10 := Env (fun _ => 10) (fun _ => true) 1 1 1 true in
  let at20 := Env (fun _ => 20) (fun _ => true) 1 1 1 true in
  let s0 := (idleruntime_reset1 at0 0%nat boot).2 in
  let r1 := (idleruntime_get at10 0%nat s0).1 in
  let r2 := (idleruntime_get at20 0%nat (idleruntime_get at10 0%nat s0).2).1 in
  r1 = (10, 0) /\ r2 = (30, 0) /\
  (r2.1 - r1.1) + (r2.2 - r1.2) = 20 /\
  clock at20 0%nat - clock at10 0%nat = 10.
Proof. vm_compute. auto. Qed.

(** ** Successive reads of one CPU *)

(** C6 does not hold: the accumulators are 64-bit and wrap.  CPU 0 is reset
    at clock 0 and read three times at clock 2^63 - 1 while idle; the clock
    never goes back, yet the idle totals are 2^63 - 1, 2^64 - 2, 2^63 - 3. *)
Lemma reads_decrease_on_overflow :
  let at0 := Env (fun _ => 0) (fun _ => true) 1 1 1 true in
  let late := Env (fun _ => 9223372036854775807) (fun _ => true) 1 1 1 true in
  let s0 := (idleruntime_reset1 at0 0%nat boot).2 in
  let rs := (get_seq 0 [late; late; late] s0).1 in
  rs = [(9223372036854775807, 0); (18446744073709551614, 0);
        (9223372036854775805, 0)] /\
  ~ StronglySorted Z.le (rs.*1).
Proof.
  vm_compute. split; [reflexivity|].
  intros Hs. apply StronglySorted_inv in Hs as [Hs _].
  apply StronglySorted_inv in Hs as [_ Hall].
  apply Forall_cons in Hall as [Hle _]. apply Hle. reflexivity.
Qed.

(** C6, amended: successive reads of one CPU, taken at clock values that
    are not below its two marks, return non-decreasing idle totals and
    non-decreasing run totals as long as no addition exceeds 64 bits. *)
Theorem get_seq_monotone `{PF : ProcFs} cpu (es : list env) (s : kstate) :
  let c := cell s cpu in
  wf_percpu c ->
  Forall (fun e => idlestart c <= U64.wrap (clock e cpu) /\
                   idlestop c <= U64.wrap (clock e cpu)) es ->
  no_wrap cpu c es ->
  let rs := (get_seq cpu es s).1 in
  StronglySorted Z.le (rs.*1) /\ StronglySorted Z.le (rs.*2).
Proof.
  revert s. induction es as [|e es IH]; intros s c Hwf Hclk Hfit rs.
  - split; constructor.
  - subst rs. rewrite get_seq_cons.
    apply Forall_cons in Hclk as [[Hs Hp] Hclk]. destruct Hfit as [Hfit Hrest].
    destruct (account_grows (curr_is_idle e cpu) (U64.wrap (clock e cpu)) c Hwf
                (U64Facts.wrap_range _) Hs Hp Hfit) as (Hwf' & Es & Ep & _ & _).
    pose proof (get_seq_above cpu es (idleruntime_get e cpu s).2) as Habove.
    specialize (IH (idleruntime_get e cpu s).2). cbn zeta in IH, Habove.
    rewrite get_cell in IH, Habove. fold c in IH, Habove.
    rewrite Es, Ep in IH, Habove.
    specialize (IH Hwf' Hclk Hrest) as [IH1 IH2].
    specialize (Habove Hwf' Hclk Hrest).
    rewrite get_result. cbn [fmap list_fmap fst snd]. fold c.
    split; constructor; auto.
    + apply Forall_fmap. eapply Forall_impl; [exact Habove|]. cbn. tauto.
    + apply Forall_fmap. eapply Forall_impl; [exact Habove|]. cbn. tauto.
Qed.

Lemma get_seq_monotone_witness :
  let at100 := Env (fun _ => 100) (fun _ => true) 1 1 1 true in
  let at300 := Env (fun _ => 300) (fun _ => false) 1 1 1 true in
  let s := with_cell 0 (PerCpu 0 100 0 0) in
  let rs := (get_seq 0 [at100; at300] s).1 in
  rs = [(100, 0); (100, 200)] /\
  StronglySorted Z.le (rs.*1) /\ StronglySorted Z.le (rs.*2).
Proof.
  split; [reflexivity|].
  apply (get_seq_monotone 0%nat
           [Env (fun _ => 100) (fun _ => true) 1 1 1 true;
            Env (fun _ => 300) (fun _ => false) 1 1 1 true]
           (with_cell 0 (PerCpu 0 100 0 0))).
  - vm_compute. intuition congruence.
  - repeat constructor; vm_compute; congruence.
  - vm_compute. auto.
Defined.

(** ** The aggregate read *)

Section Aggregate.
Context `{PF : ProcFs} (e : env).

Lemma foldl_add_0 l : foldl U64.add 0 l = U64.wrap (Zsum l).
Proof.
  pose proof (foldl_add_wrap 0 l) as H.
  change (U64.wrap 0) with 0 in H. by rewrite Z.add_0_l in H.
Qed.

Lemma show_result (m : seq_file) (s : kstate) :
  (idleruntime_show e m s).1 =
    (0, idleruntime_output m (idleruntime_get e (private m) s).1.1
                             (idleruntime_get e (private m) s).1.2).
Proof.
  unfold idleruntime_show, mbind, M_bind, bind, mret, M_ret, ret.
  by destruct (idleruntime_get e (private m) s) as [[i r] s1].
Qed.

Lemma show_all_result (m : seq_file) (s : kstate) :
  let cpus := for_each_cpu e (cpu_present_mask e) in
  (idleruntime_show_all e m s).1 =
    (0, idleruntime_output m
          (U64.wrap (Zsum ((fun c => (idleruntime_get e c s).1.1) <$> cpus)))
          (U64.wrap (Zsum ((fun c => (idleruntime_get e c s).1.2) <$> cpus)))).
Proof.
  intros cpus.
  pose proof (show_all_loop_foldl e cpus (for_each_cpu_NoDup e _) s
                (set_klog (klog s ++ [EvPreemptDisable]) s) 0 0
                (fun c _ => eq_refl)) as Hloop.
  rewrite !foldl_add_0 in Hloop.
  unfold idleruntime_show_all, preempt_disable, preempt_enable, emit, modify.
  unfold mbind, M_bind, bind, mret, M_ret, ret. fold cpus.
  destruct (show_all_loop e cpus 0 0 _) as [[ti tr] s1].
  cbn in Hloop. by injection Hloop as -> ->.
Qed.

End Aggregate.




(** ** CPUs going offline and coming back *)

(** C8 does not hold: coming online does not start a CPU's counters afresh.
    Two CPUs are initialised at clock 0 and CPU 1 comes online; at clock
    1000, with CPU 1 busy, it is read, goes offline, comes back online and
    is read again at once.  Its counters after the join are those from
    before the leave, run total 1000 and marks 0, and the read prints a run
    total of 2000. *)
Lemma rejoined_cpu_keeps_its_totals :
  let at0 := Env (fun _ => 0) (fun _ => false) 2 3 3 true in
  let at1000 := Env (fun _ => 1000) (fun _ => false) 2 3 3 true in
  let s0 := (idleruntime_init at0 boot).2 in
  let s1 := (idleruntime_cpu_callback at0 CPU_ONLINE 1%nat s0).2 in
  let s2 := (idleruntime_show at1000 (SeqFile 1 "") s1).2 in
  let s3 := (idleruntime_cpu_callback at1000 CPU_DEAD 1%nat s2).2 in
  let s4 := (idleruntime_cpu_callback at1000 CPU_ONLINE 1%nat s3).2 in
  cell s2 1 = PerCpu 0 0 0 1000 /\
  idleruntime_dir s3 !! 1%nat = None /\
  idleruntime_dir s4 !! 1%nat = Some ["idleruntime"; "cpu1"] /\
  cell s4 1 = PerCpu 0 0 0 1000 /\
  (idleruntime_show at1000 (SeqFile 1 "") s4).1 =
    (0, SeqFile 1 ("0 2000" +:+ newline)).
Proof. vm_compute. auto 6. Qed.

(* the notifications for a CPU that dies and comes back leave the counters of
   every CPU alone, so a read returns what it would have returned without
   them *)
Lemma leave_and_join_counters `{PF : ProcFs}
    (e1 e2 e3 : env) cpu (m : seq_file) (s : kstate) :
  let s1 := (idleruntime_cpu_callback e1 CPU_DEAD cpu s).2 in
  let s2 := (idleruntime_cpu_callback e2 CPU_ONLINE cpu s1).2 in
  percpu_data s1 = percpu_data s /\
  percpu_data s2 = percpu_data s /\
  (idleruntime_get e3 cpu s2).1 = (idleruntime_get e3 cpu s).1 /\
  (idleruntime_show e3 m s2).1 = (idleruntime_show e3 m s).1.
Proof.
  intros s1 s2.
  assert (H1 : percpu_data s1 = percpu_data s) by apply callback_percpu.
  assert (H2 : percpu_data s2 = percpu_data s).
  { subst s2. by rewrite callback_percpu. }
  assert (Hcell : forall c, cell s2 c = cell s c).
  { intros c. unfold cell. by rewrite H2. }
  repeat split; auto.
  - by apply get_result_cell.
  - rewrite !show_result. by rewrite (get_result_cell e3 _ s2 s (Hcell _)).
Qed.

(** C9 does not hold: a second CPU_ONLINE for CPU 1 is answered with
    NOTIFY_OK, as the first one. *)
Lemma second_join_is_accepted :
  let e := Env (fun _ => 0) (fun _ => false) 2 3 3 true in
  let s0 := (idleruntime_init e boot).2 in
  let first := idleruntime_cpu_callback e CPU_ONLINE 1%nat s0 in
  let second := idleruntime_cpu_callback e CPU_ONLINE 1%nat first.2 in
  first.1 = NOTIFY_OK /\ second.1 = NOTIFY_OK /\ second.1 = first.1.
Proof. vm_compute. auto. Qed.

(** C9, amended: a second CPU_ONLINE for the same CPU is not detected.  The
    callback runs [setup_procfiles] once more and returns NOTIFY_OK, as it
    did the first time; the four variables of every CPU are as they were
    before it. *)
Theorem duplicate_join_leaves_the_counters `{PF : ProcFs}
    (e e' : env) cpu (s : kstate) :
  let first := idleruntime_cpu_callback e CPU_ONLINE cpu s in
  let second := idleruntime_cpu_callback e' CPU_ONLINE cpu first.2 in
  first.1 = NOTIFY_OK /\
  second = (NOTIFY_OK, (setup_procfiles cpu first.2).2) /\
  percpu_data second.2 = percpu_data first.2 /\
  (forall cpu', cell second.2 cpu' = cell first.2 cpu').
Proof.
  intros first second. repeat split.
  - apply callback_result.
  - subst second. generalize first.2. intros s1.
    unfold idleruntime_cpu_callback, mbind, M_bind, bind, mret, M_ret, ret.
    change (CPU_ONLINE =? CPU_ONLINE) with true.
    by destruct (setup_procfiles cpu s1).
  - apply callback_percpu.
  - intros cpu'. apply callback_cell.
Qed.

(** * Further properties of the code *)

(** ** One call, the rest of the state *)

Section Frames.
Context `{PF : ProcFs} (e : env).

Lemma get_same_proc_side cpu (s : kstate) :
  same_proc_side s (idleruntime_get e cpu s).2.
Proof. rewrite idleruntime_get_run. by repeat split. Qed.

Lemma get_klog cpu (s : kstate) :
  klog (idleruntime_get e cpu s).2 = klog s ++ get_events (curr_is_idle e cpu) cpu.
Proof. by rewrite idleruntime_get_run. Qed.

Lemma reset1_same_proc_side cpu (s : kstate) :
  same_proc_side s (idleruntime_reset1 e cpu s).2.
Proof. rewrite idleruntime_reset1_run. by repeat split. Qed.

Lemma reset1_klog cpu (s : kstate) :
  klog (idleruntime_reset1 e cpu s).2 = klog s ++ reset1_events cpu.
Proof. by rewrite idleruntime_reset1_run. Qed.

Lemma reset1_cell cpu (s : kstate) :
  cell (idleruntime_reset1 e cpu s).2 cpu =
    PerCpu (U64.wrap (clock e cpu)) (U64.wrap (clock e cpu)) 0 0.
Proof. rewrite idleruntime_reset1_run. apply cell_insert_eq. Qed.

Lemma reset1_cell_other cpu cpu' (s : kstate) :
  cpu <> cpu' -> cell (idleruntime_reset1 e cpu s).2 cpu' = cell s cpu'.
Proof. intros Hne. rewrite idleruntime_reset1_run. by apply cell_insert_ne. Qed.

Lemma same_proc_side_refl (s : kstate) : same_proc_side s s.
Proof. by repeat split. Qed.

Lemma same_proc_side_trans (s1 s2 s3 : kstate) :
  same_proc_side s1 s2 -> same_proc_side s2 s3 -> same_proc_side s1 s3.
Proof.
  intros (A1 & A2 & A3 & A4) (B1 & B2 & B3 & B4).
  repeat split; congruence.
Qed.

Lemma show_all_loop_cons cpu cpus ti tr (s : kstate) :
  show_all_loop e (cpu :: cpus) ti tr s =
    show_all_loop e cpus (U64.add ti (idleruntime_get e cpu s).1.1)
                         (U64.add tr (idleruntime_get e cpu s).1.2)
                         (idleruntime_get e cpu s).2.
Proof.
  cbn [show_all_loop]. unfold mbind, M_bind, bind.
  by destruct (idleruntime_get e cpu s) as [[i r] s1].
Qed.

Lemma reset_all_loop_cons cpu cpus (s : kstate) :
  reset_all_loop e (cpu :: cpus) s =
    reset_all_loop e cpus (idleruntime_reset1 e cpu s).2.
Proof.
  cbn [reset_all_loop]. unfold mbind, M_bind, bind.
  by destruct (idleruntime_reset1 e cpu s) as [u s1].
Qed.

Lemma for_each_cpu_spec mask cpu :
  cpu ∈ for_each_cpu e mask <-> cpu_in_mask e mask cpu = true.
Proof.
  unfold for_each_cpu, cpu_in_mask.
  rewrite list_elem_of_In, List.filter_In, List.in_seq, andb_true_iff, Nat.ltb_lt.
  intuition lia.
Qed.

Lemma show_all_loop_state cpus :
  forall ti tr (s : kstate),
    let s' := (show_all_loop e cpus ti tr s).2 in
    klog s' = klog s ++ scan_events e cpus /\
    same_proc_side s s' /\
    (forall c, c ∉ cpus -> cell s' c = cell s c) /\
    (NoDup cpus ->
     forall c, c ∈ cpus ->
       cell s' c = account (curr_is_idle e c) (U64.wrap (clock e c)) (cell s c)).
Proof.
  induction cpus as [|cpu cpus IH]; intros ti tr s s'.
  - subst s'. cbn. rewrite app_nil_r.
    split; [done|]. split; [apply same_proc_side_refl|]. split; [done|].
    intros _ c Hc. by apply not_elem_of_nil in Hc.
  - subst s'. rewrite show_all_loop_cons.
    destruct (IH (U64.add ti (idleruntime_get e cpu s).1.1)
                 (U64.add tr (idleruntime_get e cpu s).1.2)
                 (idleruntime_get e cpu s).2) as (Hlog & Hside & Hout & Hin).
    split; [|split; [|split]].
    + rewrite Hlog, get_klog. unfold scan_events. cbn [flat_map].
      by rewrite app_assoc.
    + eapply same_proc_side_trans; [apply get_same_proc_side | exact Hside].
    + intros c Hc. apply not_elem_of_cons in Hc as [Hne Hc].
      rewrite Hout by done. by apply get_cell_other.
    + intros Hnd c Hc. apply NoDup_cons in Hnd as [Hnotin Hnd].
      apply elem_of_cons in Hc as [-> | Hc].
      * rewrite Hout by done. apply get_cell.
      * rewrite (Hin Hnd c Hc).
        rewrite get_cell_other by (intros ->; contradiction). reflexivity.
Qed.

Lemma reset_all_loop_state cpus :
  forall (s : kstate),
    let s' := (reset_all_loop e cpus s).2 in
    klog s' = klog s ++ reset_scan_events cpus /\
    same_proc_side s s' /\
    (forall c, c ∉ cpus -> cell s' c = cell s c) /\
    (forall c, c ∈ cpus ->
       cell s' c = PerCpu (U64.wrap (clock e c)) (U64.wrap (clock e c)) 0 0).
Proof.
  induction cpus as [|cpu cpus IH]; intros s s'.
  - subst s'. cbn. rewrite app_nil_r.
    split; [done|]. split; [apply same_proc_side_refl|]. split; [done|].
    intros c Hc. by apply not_elem_of_nil in Hc.
  - subst s'. rewrite reset_all_loop_cons.
    destruct (IH (idleruntime_reset1 e cpu s).2) as (Hlog & Hside & Hout & Hin).
    split; [|split; [|split]].
    + rewrite Hlog, reset1_klog. unfold reset_scan_events. cbn [flat_map].
      by rewrite app_assoc.
    + eapply same_proc_side_trans; [apply reset1_same_proc_side | exact Hside].
    + intros c Hc. apply not_elem_of_cons in Hc as [Hne Hc].
      rewrite Hout by done. by apply reset1_cell_other.
    + intros c Hc. destruct (decide (c ∈ cpus)) as [Hc'|Hc'].
      * by apply Hin.
      * apply elem_of_cons in Hc as [-> | Hc]; [|contradiction].
        rewrite Hout by done. apply reset1_cell.
Qed.

End Frames.

(** ** The scans over the present CPUs *)

Section Scans.
Context `{PF : ProcFs} (e : env).

Lemma show_all_run (m : seq_file) (s : kstate) :
  idleruntime_show_all e m s =
    let r := show_all_loop e (for_each_cpu e (cpu_present_mask e)) 0 0
               (set_klog (klog s ++ [EvPreemptDisable]) s) in
    ((0, idleruntime_output m r.1.1 r.1.2),
     set_klog (klog r.2 ++ [EvPreemptEnable]) r.2).
Proof.
  unfold idleruntime_show_all, preempt_disable, preempt_enable, emit, modify.
  unfold mbind, M_bind, bind, mret, M_ret, ret.
  by destruct (show_all_loop e _ 0 0 _) as [[ti tr] s1].
Qed.

Lemma reset_all_run len (s : kstate) :
  idleruntime_reset_all e len s =
    let r := reset_all_loop e (for_each_cpu e (cpu_present_mask e))
               (set_klog (klog s ++ [EvPreemptDisable]) s) in
    (size_t_to_ssize_t (bits_per_long e) len,
     set_klog (klog r.2 ++ [EvPreemptEnable]) r.2).
Proof.
  unfold idleruntime_reset_all, preempt_disable, preempt_enable, emit, modify.
  unfold mbind, M_bind, bind, mret, M_ret, ret.
  by destruct (reset_all_loop e _ _) as [u s1].
Qed.

Lemma under_lock_get_app idle cpu rest :
  under_lock [] (get_events idle cpu ++ rest) = under_lock [] rest.
Proof. destruct idle; cbn; rewrite !Nat.eqb_refl; reflexivity. Qed.

Lemma under_lock_reset1_app cpu rest :
  under_lock [] (reset1_events cpu ++ rest) = under_lock [] rest.
Proof. cbn; rewrite !Nat.eqb_refl; reflexivity. Qed.

Lemma peak_locks_get_app idle cpu rest :
  peak_locks 0 (get_events idle cpu ++ rest) = Nat.max 1 (peak_locks 0 rest).
Proof. destruct idle; reflexivity. Qed.

Lemma peak_locks_reset1_app cpu rest :
  peak_locks 0 (reset1_events cpu ++ rest) = Nat.max 1 (peak_locks 0 rest).
Proof. reflexivity. Qed.

Lemma scan_events_disciplined cpus tail :
  under_lock [] (scan_events e cpus ++ tail) = under_lock [] tail /\
  (peak_locks 0 (scan_events e cpus ++ tail) <= Nat.max 1 (peak_locks 0 tail))%nat.
Proof.
  induction cpus as [|cpu cpus [IH1 IH2]]; cbn [scan_events flat_map app].
  - split; [done | lia].
  - fold (scan_events e cpus). rewrite <- app_assoc.
    rewrite under_lock_get_app, peak_locks_get_app. split; [done | lia].
Qed.

Lemma reset_scan_events_disciplined cpus tail :
  under_lock [] (reset_scan_events cpus ++ tail) = under_lock [] tail /\
  (peak_locks 0 (reset_scan_events cpus ++ tail) <= Nat.max 1 (peak_locks 0 tail))%nat.
Proof.
  induction cpus as [|cpu cpus [IH1 IH2]]; cbn [reset_scan_events flat_map app].
  - split; [done | lia].
  - fold (reset_scan_events cpus). rewrite <- app_assoc.
    rewrite under_lock_reset1_app, peak_locks_reset1_app. split; [done | lia].
Qed.

End Scans.

Section ScanCells.
Context `{PF : ProcFs} (e : env).

Lemma reset_all_cells (len : Z) (s : kstate) cpu :
  cell (idleruntime_reset_all e len s).2 cpu =
    if cpu_in_mask e (cpu_present_mask e) cpu
    then PerCpu (U64.wrap (clock e cpu)) (U64.wrap (clock e cpu)) 0 0
    else cell s cpu.
Proof.
  rewrite reset_all_run. cbn zeta.
  destruct (reset_all_loop_state e (for_each_cpu e (cpu_present_mask e))
              (set_klog (klog s ++ [EvPreemptDisable]) s)) as (_ & _ & Hout & Hin).
  destruct (cpu_in_mask e (cpu_present_mask e) cpu) eqn:Hmask.
  - apply for_each_cpu_spec in Hmask. exact (Hin cpu Hmask).
  - assert (Hnot : cpu ∉ for_each_cpu e (cpu_present_mask e)).
    { rewrite for_each_cpu_spec. congruence. }
    exact (Hout cpu Hnot).
Qed.

Lemma show_all_cells (m : seq_file) (s : kstate) cpu :
  cell (idleruntime_show_all e m s).2 cpu =
    if cpu_in_mask e (cpu_present_mask e) cpu
    then account (curr_is_idle e cpu) (U64.wrap (clock e cpu)) (cell s cpu)
    else cell s cpu.
Proof.
  rewrite show_all_run. cbn zeta.
  destruct (show_all_loop_state e (for_each_cpu e (cpu_present_mask e)) 0 0
              (set_klog (klog s ++ [EvPreemptDisable]) s)) as (_ & _ & Hout & Hin).
  destruct (cpu_in_mask e (cpu_present_mask e) cpu) eqn:Hmask.
  - apply for_each_cpu_spec in Hmask.
    exact (Hin (for_each_cpu_NoDup e _) cpu Hmask).
  - assert (Hnot : cpu ∉ for_each_cpu e (cpu_present_mask e)).
    { rewrite for_each_cpu_spec. congruence. }
    exact (Hout cpu Hnot).
Qed.

End ScanCells.

(** X1: a write to the aggregate reset entry resets every present CPU and no
    other: each CPU visited by the scan ends with both accumulators 0 and
    both marks at its own clock value, and the others keep their counters.
    The call returns the length it was given, a size_t, as an ssize_t: the
    length itself below 2^(BITS_PER_LONG - 1), and a negative value, the
    length less 2^BITS_PER_LONG, from there on. *)
Theorem idleruntime_reset_all_resets_present_cpus `{PF : ProcFs}
    (e : env) (len : Z) (s : kstate) :
  let s' := (idleruntime_reset_all e len s).2 in
  let w := bits_per_long e in
  (idleruntime_reset_all e len s).1 = size_t_to_ssize_t w len /\
  (0 <= len < 2 ^ (w - 1) -> (idleruntime_reset_all e len s).1 = len) /\
  (0 < w -> 2 ^ (w - 1) <= len < 2 ^ w ->
   (idleruntime_reset_all e len s).1 = len - 2 ^ w) /\
  forall cpu,
    cell s' cpu =
      if cpu_in_mask e (cpu_present_mask e) cpu
      then PerCpu (U64.wrap (clock e cpu)) (U64.wrap (clock e cpu)) 0 0
      else cell s cpu.
Proof.
  intros s' w.
  assert (Hres : (idleruntime_reset_all e len s).1 = size_t_to_ssize_t w len)
    by (by rewrite reset_all_run).
  split; [exact Hres|]. split; [|split].
  - intros Hlen. rewrite Hres. by apply ssize_small.
  - intros Hw Hlen. rewrite Hres. by apply ssize_large.
  - intros cpu. apply reset_all_cells.
Qed.

Lemma idleruntime_reset_all_resets_present_cpus_witness :
  let e := MkEnv (fun _ => 100) (fun _ => true) 2 3 3 true 32 in
  let s := with_cell 1 (PerCpu 1 2 3 4) in
  (idleruntime_reset_all e 8 s).1 = 8 /\
  (idleruntime_reset_all e 4294967291 s).1 = -5 /\
  cell (idleruntime_reset_all e 8 s).2 1 = PerCpu 100 100 0 0 /\
  cell (idleruntime_reset_all e 8 s).2 2 = PerCpu 0 0 0 0.
Proof.
  pose (e := MkEnv (fun _ => 100) (fun _ => true) 2 3 3 true 32).
  pose (s := with_cell 1 (PerCpu 1 2 3 4)).
  destruct (idleruntime_reset_all_resets_present_cpus e 8 s)
    as (_ & Hsmall & _ & Hcells).
  destruct (idleruntime_reset_all_resets_present_cpus e 4294967291 s)
    as (_ & _ & Hlarge & _).
  split; [apply Hsmall; vm_compute; split; congruence|].
  split; [exact (Hlarge eq_refl ltac:(vm_compute; split; congruence))|].
  split; [exact (Hcells 1%nat) | exact (Hcells 2%nat)].
Defined.

(** X2: a read of the aggregate entry accounts every present CPU once and
    touches no other: a CPU visited by the scan has the time since its mark
    added to the accumulator of its current state, exactly as a read of its
    own entry would, and the counters of the other CPUs stay as they are. *)
Theorem idleruntime_show_all_accounts_present_cpus_once `{PF : ProcFs}
    (e : env) (m : seq_file) (s : kstate) :
  let s' := (idleruntime_show_all e m s).2 in
  forall cpu,
    cell s' cpu =
      if cpu_in_mask e (cpu_present_mask e) cpu
      then cell (idleruntime_get e cpu s).2 cpu
      else cell s cpu.
Proof.
  intros s' cpu. subst s'. rewrite show_all_cells, get_cell. reflexivity.
Qed.

(** X3: the aggregate read runs with preemption disabled and takes the
    locks one CPU at a time: between preempt_disable and preempt_enable it
    performs, for each present CPU in ascending order, exactly the events
    of a single read; every load and store happens under the lock of its
    CPU and no two locks are ever held together. *)
Theorem idleruntime_show_all_locks_one_cpu_at_a_time `{PF : ProcFs}
    (e : env) (m : seq_file) (s : kstate) :
  let s' := (idleruntime_show_all e m s).2 in
  emitted s s' =
    [EvPreemptDisable] ++
    scan_events e (for_each_cpu e (cpu_present_mask e)) ++
    [EvPreemptEnable] /\
  under_lock [] (emitted s s') = true /\
  (peak_locks 0 (emitted s s') <= 1)%nat.
Proof.
  intros s'.
  assert (Hev : emitted s s' =
    [EvPreemptDisable] ++
    scan_events e (for_each_cpu e (cpu_present_mask e)) ++ [EvPreemptEnable]).
  { apply emitted_app. subst s'. rewrite show_all_run. cbn zeta.
    destruct (show_all_loop_state e (for_each_cpu e (cpu_present_mask e)) 0 0
                (set_klog (klog s ++ [EvPreemptDisable]) s)) as (Hlog & _).
    cbn [klog set_klog snd]. cbn in Hlog. rewrite Hlog.
    by rewrite <- !app_assoc. }
  rewrite Hev. split; [done|].
  destruct (scan_events_disciplined e (for_each_cpu e (cpu_present_mask e))
              [EvPreemptEnable]) as [Hlock Hpeak].
  split; [exact Hlock | exact Hpeak].
Qed.

(** X4: the aggregate reset follows the same discipline: with preemption
    disabled it performs, for each present CPU in ascending order, the
    events of a single reset, each under the lock of its CPU and with never
    more than one lock held. *)
Theorem idleruntime_reset_all_locks_one_cpu_at_a_time `{PF : ProcFs}
    (e : env) (len : Z) (s : kstate) :
  let s' := (idleruntime_reset_all e len s).2 in
  emitted s s' =
    [EvPreemptDisable] ++
    reset_scan_events (for_each_cpu e (cpu_present_mask e)) ++
    [EvPreemptEnable] /\
  under_lock [] (emitted s s') = true /\
  (peak_locks 0 (emitted s s') <= 1)%nat.
Proof.
  intros s'.
  assert (Hev : emitted s s' =
    [EvPreemptDisable] ++
    reset_scan_events (for_each_cpu e (cpu_present_mask e)) ++ [EvPreemptEnable]).
  { apply emitted_app. subst s'. rewrite reset_all_run. cbn zeta.
    destruct (reset_all_loop_state e (for_each_cpu e (cpu_present_mask e))
                (set_klog (klog s ++ [EvPreemptDisable]) s)) as (Hlog & _).
    cbn [klog set_klog snd]. cbn in Hlog. rewrite Hlog.
    by rewrite <- !app_assoc. }
  rewrite Hev. split; [done|].
  destruct (reset_scan_events_disciplined (for_each_cpu e (cpu_present_mask e))
              [EvPreemptEnable]) as [Hlock Hpeak].
  split; [exact Hlock | exact Hpeak].
Qed.

(** ** Any sequence of requests *)

Section Serving.
Context `{PF : ProcFs}.

Lemma setup_procfiles_rest cpu (s : kstate) :
  let s' := (setup_procfiles cpu s).2 in
  root_idleruntime_dir s' = root_idleruntime_dir s /\
  notifier_registered s' = notifier_registered s /\
  klog s' = klog s.
Proof.
  destruct s as [pd dirs [root|] p reg log]; unfold setup_procfiles; run_m;
    [|done].
  by destruct (proc_mkdir _ _ _) as [[d|] p'].
Qed.

Lemma unset_procfiles_rest cpu (s : kstate) :
  let s' := (unset_procfiles cpu s).2 in
  root_idleruntime_dir s' = root_idleruntime_dir s /\
  notifier_registered s' = notifier_registered s /\
  klog s' = klog s.
Proof.
  destruct s as [pd dirs root p reg log]; unfold unset_procfiles; run_m.
  by destruct (dirs !! cpu) as [d|].
Qed.

Lemma callback_state (e : env) action cpu (s : kstate) :
  (idleruntime_cpu_callback e action cpu s).2 =
    if action =? CPU_ONLINE then (setup_procfiles cpu s).2
    else if config_hotplug_cpu e && (action =? CPU_DEAD)
         then (unset_procfiles cpu s).2
         else s.
Proof.
  unfold idleruntime_cpu_callback, mbind, M_bind, bind, mret, M_ret, ret.
  destruct (action =? CPU_ONLINE).
  - by destruct (setup_procfiles cpu s).
  - destruct (config_hotplug_cpu e && (action =? CPU_DEAD)); [|done].
    by destruct (unset_procfiles cpu s).
Qed.

Lemma callback_rest (e : env) action cpu (s : kstate) :
  let s' := (idleruntime_cpu_callback e action cpu s).2 in
  root_idleruntime_dir s' = root_idleruntime_dir s /\
  notifier_registered s' = notifier_registered s /\
  klog s' = klog s.
Proof.
  cbn zeta. rewrite callback_state.
  destruct (action =? CPU_ONLINE); [apply setup_procfiles_rest|].
  destruct (config_hotplug_cpu e && (action =? CPU_DEAD));
    [apply unset_procfiles_rest | done].
Qed.

Lemma show_state (e : env) (m : seq_file) (s : kstate) :
  (idleruntime_show e m s).2 = (idleruntime_get e (private m) s).2.
Proof.
  unfold idleruntime_show, mbind, M_bind, bind, mret, M_ret, ret.
  by destruct (idleruntime_get e (private m) s) as [[i r] s1].
Qed.

Lemma reset_state (e : env) cpu len (s : kstate) :
  (idleruntime_reset e cpu len s).2 = (idleruntime_reset1 e cpu s).2.
Proof.
  unfold idleruntime_reset, mbind, M_bind, bind, mret, M_ret, ret.
  by destruct (idleruntime_reset1 e cpu s) as [u s1].
Qed.

Lemma serve_state (e : env) (r : request) (s : kstate) :
  (serve e r s).2 =
    match r with
    | ReadData cpu => (idleruntime_get e cpu s).2
    | WriteReset cpu len => (idleruntime_reset1 e cpu s).2
    | ReadAll => (idleruntime_show_all e (SeqFile 0 "") s).2
    | WriteResetAll len => (idleruntime_reset_all e len s).2
    | Notify action hcpu => (idleruntime_cpu_callback e action hcpu s).2
    end.
Proof.
  destruct r as [cpu|cpu len| |len|action hcpu];
    unfold serve, mbind, M_bind, bind, mret, M_ret, ret.
  - pose proof (show_state e (SeqFile cpu "") s) as H. cbn [private] in H.
    rewrite <- H. by destruct (idleruntime_show e (SeqFile cpu "") s).
  - rewrite <- (reset_state e cpu len s).
    by destruct (idleruntime_reset e cpu len s).
  - by destruct (idleruntime_show_all e (SeqFile 0 "") s).
  - by destruct (idleruntime_reset_all e len s).
  - by destruct (idleruntime_cpu_callback e action hcpu s).
Qed.

Lemma serve_all_cons (e : env) (r : request) rs (s : kstate) :
  (serve_all ((e, r) :: rs) s).2 = (serve_all rs (serve e r s).2).2.
Proof.
  cbn [serve_all]. unfold mbind, M_bind, bind.
  by destruct (serve e r s) as [u s1].
Qed.

(* what one request can do to the counters of one CPU *)
Lemma serve_cell (e : env) (r : request) (s : kstate) cpu :
  let c := cell s cpu in
  let c' := cell (serve e r s).2 cpu in
  c' = c \/
  (is_notify r = false /\ is_reset r = false /\
   c' = account (curr_is_idle e cpu) (U64.wrap (clock e cpu)) c) \/
  (is_reset r = true /\
   c' = PerCpu (U64.wrap (clock e cpu)) (U64.wrap (clock e cpu)) 0 0).
Proof.
  cbn zeta. rewrite serve_state.
  destruct r as [cpu0|cpu0 len| |len|action hcpu].
  - destruct (decide (cpu0 = cpu)) as [->|Hne].
    + right; left. by rewrite get_cell.
    + left. by apply get_cell_other.
  - destruct (decide (cpu0 = cpu)) as [->|Hne].
    + right; right. by rewrite reset1_cell.
    + left. by apply reset1_cell_other.
  - rewrite show_all_cells.
    destruct (cpu_in_mask _ _ _); [|by left].
    by right; left.
  - rewrite reset_all_cells. destruct (cpu_in_mask _ _ _); [|by left].
    by right; right.
  - left. apply callback_cell.
Qed.

Lemma serve_same_proc_side (e : env) (r : request) (s : kstate) :
  is_notify r = false -> same_proc_side s (serve e r s).2.
Proof.
  intros Hr. rewrite serve_state.
  destruct r as [cpu|cpu len| |len|action hcpu]; try discriminate.
  - apply get_same_proc_side.
  - apply reset1_same_proc_side.
  - rewrite show_all_run. cbn zeta.
    destruct (show_all_loop_state e (for_each_cpu e (cpu_present_mask e)) 0 0
                (set_klog (klog s ++ [EvPreemptDisable]) s)) as (_ & Hside & _).
    exact Hside.
  - rewrite reset_all_run. cbn zeta.
    destruct (reset_all_loop_state e (for_each_cpu e (cpu_present_mask e))
                (set_klog (klog s ++ [EvPreemptDisable]) s)) as (_ & Hside & _).
    exact Hside.
Qed.

Lemma account_wf idle now c :
  wf_percpu c -> wf_percpu (account idle now c).
Proof.
  intros (Hstart & Hstop & Hidle & Hrun). unfold wf_percpu, account.
  destruct idle; cbn; (split; [|split; [|split]]); auto;
    apply U64Facts.wrap_range.
Qed.

End Serving.

(** X5: whatever requests arrive, the four counters of every CPU stay
    within 64 bits once they are: every value the file stores is a clock
    sample, zero, or a sum reduced to 64 bits. *)
Theorem requests_keep_counters_in_range `{PF : ProcFs}
    (rs : list (env * request)) (s : kstate) :
  (forall cpu, wf_percpu (cell s cpu)) ->
  forall cpu, wf_percpu (cell (serve_all rs s).2 cpu).
Proof.
  revert s. induction rs as [|[e r] rs IH]; intros s Hwf cpu; [apply Hwf|].
  rewrite serve_all_cons. apply IH. clear cpu. intros cpu.
  destruct (serve_cell e r s cpu) as [-> | [(_ & _ & ->) | (_ & ->)]].
  - apply Hwf.
  - apply account_wf, Hwf.
  - repeat split; try apply U64Facts.wrap_range; done.
Qed.

Lemma requests_keep_counters_in_range_witness :
  let at10 := Env (fun _ => 10) (fun _ => true) 2 3 3 true in
  let at20 := Env (fun _ => 20) (fun _ => false) 2 3 3 true in
  let rs := [(at10, ReadAll); (at10, Notify CPU_DEAD 1); (at20, WriteReset 0 1);
             (at20, ReadData 1)] in
  (forall cpu, wf_percpu (cell boot cpu)) /\
  forall cpu, wf_percpu (cell (serve_all rs boot).2 cpu).
Proof.
  assert (Hboot : forall cpu, wf_percpu (cell boot cpu)).
  { intros cpu. vm_compute. intuition congruence. }
  split; [exact Hboot|].
  exact (requests_keep_counters_in_range
           [(Env (fun _ => 10) (fun _ => true) 2 3 3 true, ReadAll);
            (Env (fun _ => 10) (fun _ => true) 2 3 3 true, Notify CPU_DEAD 1);
            (Env (fun _ => 20) (fun _ => false) 2 3 3 true, WriteReset 0 1);
            (Env (fun _ => 20) (fun _ => false) 2 3 3 true, ReadData 1)]
           boot Hboot).
Defined.

(** X6: the two marks of a CPU move only when something is written to a
    reset entry: over any sequence of reads and CPU notifications, however
    long and at whatever clock values, [idlestart] and [idlestop] of every
    CPU keep the values they had. *)
Theorem marks_move_only_on_reset `{PF : ProcFs}
    (rs : list (env * request)) (s : kstate) :
  Forall (fun er : env * request => is_reset er.2 = false) rs ->
  forall cpu,
    idlestart (cell (serve_all rs s).2 cpu) = idlestart (cell s cpu) /\
    idlestop (cell (serve_all rs s).2 cpu) = idlestop (cell s cpu).
Proof.
  revert s. induction rs as [|[e r] rs IH]; intros s Hrs cpu; [done|].
  apply Forall_cons in Hrs as [Hr Hrs]. cbn in Hr.
  rewrite serve_all_cons. destruct (IH (serve e r s).2 Hrs cpu) as [-> ->].
  destruct (serve_cell e r s cpu) as [-> | [(_ & _ & ->) | (Hreset & _)]].
  - done.
  - unfold account. by destruct (curr_is_idle e cpu).
  - congruence.
Qed.

Lemma marks_move_only_on_reset_witness :
  let at10 := Env (fun _ => 10) (fun _ => true) 2 3 3 true in
  let at20 := Env (fun _ => 20) (fun _ => false) 2 3 3 true in
  let rs := [(at10, ReadAll); (at20, ReadData 1); (at20, Notify CPU_ONLINE 1)] in
  let s := with_cell 1 (PerCpu 3 4 0 0) in
  Forall (fun er : env * request => is_reset er.2 = false) rs /\
  idlestart (cell (serve_all rs s).2 1) = 3 /\
  idlestop (cell (serve_all rs s).2 1) = 4.
Proof.
  assert (Hrs : Forall (fun er : env * request => is_reset er.2 = false)
                  [(Env (fun _ => 10) (fun _ => true) 2 3 3 true, ReadAll);
                   (Env (fun _ => 20) (fun _ => false) 2 3 3 true, ReadData 1);
                   (Env (fun _ => 20) (fun _ => false) 2 3 3 true,
                    Notify CPU_ONLINE 1)]).
  { repeat constructor. }
  split; [exact Hrs|].
  exact (marks_move_only_on_reset _ (with_cell 1 (PerCpu 3 4 0 0)) Hrs 1%nat).
Defined.

(** X7: reads and resets never reach into procfs: over any sequence of
    requests without CPU notifications the per-CPU directory handles, the
    root directory, the proc tree and the notifier registration are what
    they were. *)
Theorem reads_and_resets_leave_the_proc_side `{PF : ProcFs}
    (rs : list (env * request)) (s : kstate) :
  Forall (fun er : env * request => is_notify er.2 = false) rs ->
  same_proc_side s (serve_all rs s).2.
Proof.
  revert s. induction rs as [|[e r] rs IH]; intros s Hrs.
  - apply same_proc_side_refl.
  - apply Forall_cons in Hrs as [Hr Hrs]. cbn in Hr.
    rewrite serve_all_cons.
    eapply same_proc_side_trans; [by apply serve_same_proc_side | by apply IH].
Qed.

Lemma reads_and_resets_leave_the_proc_side_witness :
  let e := Env (fun _ => 0) (fun _ => false) 2 3 3 true in
  let at10 := Env (fun _ => 10) (fun _ => true) 2 3 3 true in
  let rs := [(at10, ReadAll); (at10, WriteResetAll 1); (at10, ReadData 0);
             (at10, WriteReset 1 1)] in
  let s := (idleruntime_init e boot).2 in
  Forall (fun er : env * request => is_notify er.2 = false) rs /\
  same_proc_side s (serve_all rs s).2.
Proof.
  assert (Hrs : Forall (fun er : env * request => is_notify er.2 = false)
                  [(Env (fun _ => 10) (fun _ => true) 2 3 3 true, ReadAll);
                   (Env (fun _ => 10) (fun _ => true) 2 3 3 true, WriteResetAll 1);
                   (Env (fun _ => 10) (fun _ => true) 2 3 3 true, ReadData 0);
                   (Env (fun _ => 10) (fun _ => true) 2 3 3 true, WriteReset 1 1)]).
  { repeat constructor. }
  split; [exact Hrs|].
  exact (reads_and_resets_leave_the_proc_side _
           (idleruntime_init (Env (fun _ => 0) (fun _ => false) 2 3 3 true) boot).2
           Hrs).
Defined.

(** X8: once set by [idleruntime_init], the root directory is never
    replaced and the notifier registration never withdrawn: no request,
    CPU notifications included, changes [root_idleruntime_dir] or the
    registration. *)
Theorem requests_keep_the_root_directory `{PF : ProcFs}
    (rs : list (env * request)) (s : kstate) :
  root_idleruntime_dir (serve_all rs s).2 = root_idleruntime_dir s /\
  notifier_registered (serve_all rs s).2 = notifier_registered s.
Proof.
  revert s. induction rs as [|[e r] rs IH]; intros s; [done|].
  rewrite serve_all_cons. destruct (IH (serve e r s).2) as [-> ->].
  destruct (is_notify r) eqn:Hr.
  - destruct r; try discriminate. rewrite serve_state.
    destruct (callback_rest e action hcpu s) as (? & ? & _). done.
  - destruct (serve_same_proc_side e r s Hr) as (_ & ? & _ & ?). done.
Qed.

(** ** CPU notifications *)

Section Lifecycle.
Context `{PF : ProcFs}.

Lemma unset_procfiles_none cpu (s : kstate) :
  idleruntime_dir s !! cpu = None -> unset_procfiles cpu s = (tt, s).
Proof.
  destruct s as [pd dirs root p reg log]. cbn. intros Hnone.
  unfold unset_procfiles; run_m. by rewrite Hnone.
Qed.

Lemma unset_procfiles_some cpu d (s : kstate) :
  idleruntime_dir s !! cpu = Some d ->
  (unset_procfiles cpu s).2 =
    set_idleruntime_dir (delete cpu (idleruntime_dir s))
      (set_proc (proc_remove d (remove_proc_entry "data" d
                   (remove_proc_entry "reset" d (proc s)))) s).
Proof.
  destruct s as [pd dirs root p reg log]. cbn. intros Hsome.
  unfold unset_procfiles; run_m. by rewrite Hsome.
Qed.

Lemma unset_procfiles_clears cpu (s : kstate) :
  idleruntime_dir (unset_procfiles cpu s).2 !! cpu = None.
Proof.
  destruct (idleruntime_dir s !! cpu) as [d|] eqn:Hd.
  - rewrite (unset_procfiles_some cpu d s Hd). cbn. apply lookup_delete_eq.
  - by rewrite (unset_procfiles_none cpu s Hd).
Qed.

Lemma setup_procfiles_no_root cpu (s : kstate) :
  root_idleruntime_dir s = None ->
  (setup_procfiles cpu s).2 = set_idleruntime_dir (delete cpu (idleruntime_dir s)) s.
Proof.
  destruct s as [pd dirs root p reg log]. cbn. intros ->.
  unfold setup_procfiles; run_m. reflexivity.
Qed.

Lemma setup_procfiles_mkdir cpu root (s : kstate) :
  root_idleruntime_dir s = Some root ->
  (setup_procfiles cpu s).2 =
    let r := proc_mkdir ("cpu" +:+ pretty cpu) (Some root) (proc s) in
    match r.1 with
    | Some d =>
        set_idleruntime_dir (<[cpu := d]> (idleruntime_dir s))
          (set_proc (proc_create_data "reset" S_IWUGO (Some d) idleruntime_fops (Some cpu)
                       (proc_create_data "data" S_IRUGO (Some d) idleruntime_fops
                          (Some cpu) r.2)) s)
    | None =>
        set_idleruntime_dir (delete cpu (idleruntime_dir s)) (set_proc r.2 s)
    end.
Proof.
  destruct s as [pd dirs root0 p reg log]. cbn. intros ->.
  unfold setup_procfiles; run_m.
  by destruct (proc_mkdir _ _ _) as [[d|] p'].
Qed.

Lemma callback_other_run (e : env) (action : Z) (hcpu : nat) (s : kstate) :
  action <> CPU_ONLINE ->
  config_hotplug_cpu e = false \/ action <> CPU_DEAD ->
  idleruntime_cpu_callback e action hcpu s = (NOTIFY_OK, s).
Proof.
  intros Honline Hdead.
  unfold idleruntime_cpu_callback, mbind, M_bind, bind, mret, M_ret, ret.
  destruct (Z.eqb_spec action CPU_ONLINE) as [|_]; [contradiction|].
  destruct (config_hotplug_cpu e); cbn [andb]; [|done].
  destruct (Z.eqb_spec action CPU_DEAD) as [|_]; [|done].
  by destruct Hdead.
Qed.

End Lifecycle.

(** ** A core that leaves and joins again, seen through its entries *)

Section Entries.
Import SimpleProcFs.

Lemma removed_below (d k : list string) (t : tree) : remove d t !! (d ++ k) = None.
Proof.
  unfold remove. apply map_lookup_filter_None_2. right.
  intros x _ Hnot. apply Hnot. cbn. by exists k.
Qed.

Lemma read_core_no_entry (e : env) id (s : kstate) :
  proc s !! core_path id "data" = None ->
  read_core e id s = (inl UnknownCoreError, s).
Proof.
  intros Hnone. unfold read_core, mbind, M_bind, bind, gets, mret, M_ret, ret.
  by rewrite Hnone.
Qed.

Lemma reset_core_no_entry (e : env) id len (s : kstate) :
  proc s !! core_path id "reset" = None ->
  reset_core e id len s = (inl UnknownCoreError, s).
Proof.
  intros Hnone. unfold reset_core, mbind, M_bind, bind, gets, mret, M_ret, ret.
  by rewrite Hnone.
Qed.

Lemma read_core_entry (e : env) id mode cpu (s : kstate) :
  proc s !! core_path id "data" = Some (File mode idleruntime_fops (Some cpu)) ->
  (read_core e id s).1 = inr (buf (idleruntime_show e (SeqFile cpu "") s).1.2).
Proof.
  intros Hsome. unfold read_core, mbind, M_bind, bind, gets, mret, M_ret, ret.
  rewrite Hsome. by destruct (idleruntime_show e (SeqFile cpu "") s) as [[z m] s'].
Qed.

(* making the directory of a core and its two entries in a tree that has
   nothing at those paths *)
Lemma entries_after_mkdir id (t : tree) :
  let d := ["idleruntime"; "cpu" +:+ pretty id] in
  t !! d = None -> t !! (d ++ ["data"]) = None -> t !! (d ++ ["reset"]) = None ->
  mkdir ("cpu" +:+ pretty id) (Some ["idleruntime"]) t = (Some d, <[d := Dir]> t) /\
  create_data "reset" S_IWUGO (Some d) idleruntime_fops (Some id)
    (create_data "data" S_IRUGO (Some d) idleruntime_fops (Some id) (<[d := Dir]> t))
    !! core_path id "data" = Some (File S_IRUGO idleruntime_fops (Some id)).
Proof.
  intros d Hdir Hdata Hreset. subst d. cbn [app] in *.
  unfold mkdir, create_data, child, core_path. cbn [from_option Datatypes.id app].
  unfold tree in *. rewrite Hdir. split; [reflexivity|].
  rewrite (lookup_insert_ne t) by discriminate. rewrite Hdata.
  rewrite !lookup_insert_ne by discriminate. rewrite Hreset.
  rewrite lookup_insert_ne by discriminate. apply lookup_insert_eq.
Qed.

(* the proc tree after CPU_DEAD and after the CPU_ONLINE that follows, for a
   core whose handle is its directory *)
Lemma leave_then_join_tree (e1 e2 : env) id (s : kstate) :
  let d := ["idleruntime"; "cpu" +:+ pretty id] in
  root_idleruntime_dir s = Some ["idleruntime"] ->
  idleruntime_dir s !! id = Some d ->
  config_hotplug_cpu e1 = true ->
  let s1 := (idleruntime_cpu_callback e1 CPU_DEAD id s).2 in
  let s2 := (idleruntime_cpu_callback e2 CPU_ONLINE id s1).2 in
  proc s1 !! core_path id "data" = None /\
  proc s1 !! core_path id "reset" = None /\
  proc s2 !! core_path id "data" = Some (File S_IRUGO idleruntime_fops (Some id)).
Proof.
  intros d Hroot Hd Hhot s1 s2.
  assert (Hs1 : s1 = (unset_procfiles id s).2).
  { subst s1. rewrite callback_state, Hhot. reflexivity. }
  rewrite (unset_procfiles_some (PF := simple_procfs) id d s Hd) in Hs1.
  set (t1 := remove d (remove_entry "data" d (remove_entry "reset" d (proc s)))).
  assert (Hp1 : proc s1 = t1) by (by rewrite Hs1).
  assert (Hroot1 : root_idleruntime_dir s1 = Some ["idleruntime"]).
  { rewrite Hs1. exact Hroot. }
  assert (Hgone : forall k, t1 !! (d ++ k) = None) by (intros k; apply removed_below).
  split; [rewrite Hp1; exact (Hgone ["data"])|].
  split; [rewrite Hp1; exact (Hgone ["reset"])|].
  destruct (entries_after_mkdir id t1 (Hgone []) (Hgone ["data"]) (Hgone ["reset"]))
    as [Hmk Hentry].
  assert (Hs2 : s2 = (setup_procfiles id s1).2).
  { subst s2. by rewrite callback_state. }
  rewrite (setup_procfiles_mkdir (PF := simple_procfs) id ["idleruntime"] s1 Hroot1)
    in Hs2.
  cbn zeta in Hs2. rewrite Hp1 in Hs2.
  match type of Hs2 with
  | context [fst ?x] =>
      assert (Hx : x = (Some d, <[d := Dir]> t1)) by exact Hmk;
      rewrite Hx in Hs2
  end.
  cbn [fst snd] in Hs2. rewrite Hs2. exact Hentry.
Qed.

End Entries.

(** C8, amended: for a core whose entries were made by a join (its handle is
    its directory), after on_core_leave the [data] and [reset] entries are
    gone, so read_core and reset_core fail with UnknownCoreError, return no
    data and change nothing.  The four variables of the core are not
    discarded by the leave nor made afresh by the join that follows: after
    it read_core succeeds and returns the totals a read would have returned
    had the core never left, continuing from the earlier accumulators and
    marks. *)
Theorem leave_hides_the_core_and_join_keeps_its_counters
    (e1 e2 e3 : env) (id : nat) (len : Z) (s : kstate) :
  root_idleruntime_dir s = Some ["idleruntime"] ->
  idleruntime_dir s !! id = Some ["idleruntime"; "cpu" +:+ pretty id] ->
  config_hotplug_cpu e1 = true ->
  let s1 := (idleruntime_cpu_callback e1 CPU_DEAD id s).2 in
  let s2 := (idleruntime_cpu_callback e2 CPU_ONLINE id s1).2 in
  let r := (idleruntime_get e3 id s).1 in
  SimpleProcFs.read_core e3 id s1 = (inl SimpleProcFs.UnknownCoreError, s1) /\
  SimpleProcFs.reset_core e3 id len s1 = (inl SimpleProcFs.UnknownCoreError, s1) /\
  percpu_data s1 = percpu_data s /\
  percpu_data s2 = percpu_data s /\
  (SimpleProcFs.read_core e3 id s2).1 =
    inr (buf (idleruntime_output (SeqFile id "") r.1 r.2)).
Proof.
  intros Hroot Hd Hhot s1 s2 r.
  destruct (leave_then_join_tree e1 e2 id s Hroot Hd Hhot) as (Hdata & Hreset & Hback).
  destruct (leave_and_join_counters e1 e2 e3 id (SeqFile id "") s)
    as (Hpd1 & Hpd2 & _ & Hshow).
  split; [by apply read_core_no_entry|].
  split; [by apply reset_core_no_entry|].
  split; [exact Hpd1|]. split; [exact Hpd2|].
  rewrite (read_core_entry e3 id S_IRUGO id s2 Hback).
  fold s1 s2 in Hshow. rewrite Hshow, show_result. reflexivity.
Qed.

Lemma leave_hides_the_core_and_join_keeps_its_counters_witness :
  let at0 := Env (fun _ => 0) (fun _ => false) 2 3 3 true in
  let at1000 := Env (fun _ => 1000) (fun _ => false) 2 3 3 true in
  let s0 := (idleruntime_cpu_callback at0 CPU_ONLINE 1%nat
               (idleruntime_init at0 boot).2).2 in
  let s := (idleruntime_show at1000 (SeqFile 1 "") s0).2 in
  let s1 := (idleruntime_cpu_callback at1000 CPU_DEAD 1%nat s).2 in
  let s2 := (idleruntime_cpu_callback at1000 CPU_ONLINE 1%nat s1).2 in
  cell s 1 = PerCpu 0 0 0 1000 /\
  SimpleProcFs.read_core at1000 1%nat s1 = (inl SimpleProcFs.UnknownCoreError, s1) /\
  SimpleProcFs.reset_core at1000 1%nat 8 s1 = (inl SimpleProcFs.UnknownCoreError, s1) /\
  percpu_data s2 = percpu_data s /\
  (SimpleProcFs.read_core at1000 1%nat s2).1 = inr ("0 2000" +:+ newline).
Proof.
  pose (at0 := Env (fun _ => 0) (fun _ => false) 2 3 3 true).
  pose (at1000 := Env (fun _ => 1000) (fun _ => false) 2 3 3 true).
  pose (s := (idleruntime_show at1000 (SeqFile 1 "")
                (idleruntime_cpu_callback at0 CPU_ONLINE 1%nat
                   (idleruntime_init at0 boot).2).2).2).
  destruct (leave_hides_the_core_and_join_keeps_its_counters
              at1000 at1000 at1000 1%nat 8 s eq_refl eq_refl eq_refl)
    as (H1 & H2 & _ & H4 & H5).
  split; [reflexivity|]. split; [exact H1|]. split; [exact H2|].
  split; [exact H4|].
  refine (eq_trans H5 _). vm_compute. reflexivity.
Defined.

(** X9: the notifier acts on CPU_ONLINE and, when CPU hotplug is configured,
    on CPU_DEAD, and on nothing else: any other action (the frozen variants
    and the prepare, cancel and failure notifications among them) is
    answered with NOTIFY_OK and changes nothing at all. *)
Theorem callback_ignores_other_actions `{PF : ProcFs}
    (e : env) (action : Z) (hcpu : nat) (s : kstate) :
  action <> CPU_ONLINE ->
  config_hotplug_cpu e = false \/ action <> CPU_DEAD ->
  idleruntime_cpu_callback e action hcpu s = (NOTIFY_OK, s).
Proof. apply callback_other_run. Qed.

Lemma callback_ignores_other_actions_witness :
  let e := Env (fun _ => 0) (fun _ => false) 2 3 3 true in
  let s := (idleruntime_init e boot).2 in
  18 <> CPU_ONLINE /\
  (config_hotplug_cpu e = false \/ 18 <> CPU_DEAD) /\
  idleruntime_cpu_callback e 18 1%nat s = (NOTIFY_OK, s).
Proof.
  assert (H1 : 18 <> CPU_ONLINE) by (vm_compute; congruence).
  assert (H2 : config_hotplug_cpu (Env (fun _ => 0) (fun _ => false) 2 3 3 true)
               = false \/ 18 <> CPU_DEAD) by (right; vm_compute; congruence).
  split; [exact H1|]. split; [exact H2|].
  exact (callback_ignores_other_actions _ 18 1%nat _ H1 H2).
Defined.

(** X10: CPU_DEAD is idempotent: a second CPU_DEAD for the same CPU, with no
    CPU_ONLINE in between, finds the handle NULL, makes no procfs call and
    leaves the whole state as the first one left it. *)
Theorem second_cpu_dead_changes_nothing `{PF : ProcFs}
    (e e' : env) (hcpu : nat) (s : kstate) :
  config_hotplug_cpu e' = config_hotplug_cpu e ->
  let s1 := (idleruntime_cpu_callback e CPU_DEAD hcpu s).2 in
  idleruntime_cpu_callback e' CPU_DEAD hcpu s1 = (NOTIFY_OK, s1).
Proof.
  intros Hcfg s1.
  destruct (config_hotplug_cpu e) eqn:Hhot.
  - assert (Hs1 : s1 = (unset_procfiles hcpu s).2).
    { subst s1. rewrite callback_state, Hhot. reflexivity. }
    unfold idleruntime_cpu_callback, mbind, M_bind, bind, mret, M_ret, ret.
    rewrite Hcfg. change (CPU_DEAD =? CPU_ONLINE) with false.
    change (true && (CPU_DEAD =? CPU_DEAD)) with true. cbv iota.
    rewrite unset_procfiles_none; [done|].
    rewrite Hs1. apply unset_procfiles_clears.
  - apply callback_other_run; [discriminate | by left].
Qed.

Lemma second_cpu_dead_changes_nothing_witness :
  let e := Env (fun _ => 0) (fun _ => false) 2 3 3 true in
  let s := (idleruntime_init e boot).2 in
  let s1 := (idleruntime_cpu_callback e CPU_DEAD 0%nat s).2 in
  config_hotplug_cpu e = config_hotplug_cpu e /\
  idleruntime_dir s !! 0%nat = Some ["idleruntime"; "cpu0"] /\
  idleruntime_cpu_callback e CPU_DEAD 0%nat s1 = (NOTIFY_OK, s1).
Proof.
  split; [reflexivity|]. split; [reflexivity|].
  exact (second_cpu_dead_changes_nothing
           (Env (fun _ => 0) (fun _ => false) 2 3 3 true)
           (Env (fun _ => 0) (fun _ => false) 2 3 3 true) 0%nat
           (idleruntime_init (Env (fun _ => 0) (fun _ => false) 2 3 3 true) boot).2
           eq_refl).
Defined.

(** X11: a CPU that comes online and then dies gets its proc entries made
    and taken away again.  When the directory can be made, CPU_ONLINE
    creates [data] and then [reset] in it and records the directory as the
    CPU's handle; CPU_DEAD then removes [reset], [data] and the directory,
    in that order, and sets the handle back to NULL.  The handles of the
    other CPUs are not touched by either. *)
Theorem online_then_dead_removes_the_entries `{PF : ProcFs}
    (e e' : env) (hcpu : nat) (root d : proc_dir_entry) (p' : procfs) (s : kstate) :
  root_idleruntime_dir s = Some root ->
  proc_mkdir ("cpu" +:+ pretty hcpu) (Some root) (proc s) = (Some d, p') ->
  config_hotplug_cpu e' = true ->
  let s1 := (idleruntime_cpu_callback e CPU_ONLINE hcpu s).2 in
  let s2 := (idleruntime_cpu_callback e' CPU_DEAD hcpu s1).2 in
  idleruntime_dir s1 !! hcpu = Some d /\
  proc s1 =
    proc_create_data "reset" S_IWUGO (Some d) idleruntime_fops (Some hcpu)
      (proc_create_data "data" S_IRUGO (Some d) idleruntime_fops (Some hcpu) p') /\
  idleruntime_dir s2 !! hcpu = None /\
  proc s2 =
    proc_remove d (remove_proc_entry "data" d (remove_proc_entry "reset" d (proc s1))) /\
  (forall cpu, cpu <> hcpu -> idleruntime_dir s2 !! cpu = idleruntime_dir s !! cpu).
Proof.
  intros Hroot Hmk Hhot s1 s2.
  assert (Hs1 : s1 =
    set_idleruntime_dir (<[hcpu := d]> (idleruntime_dir s))
      (set_proc (proc_create_data "reset" S_IWUGO (Some d) idleruntime_fops (Some hcpu)
                   (proc_create_data "data" S_IRUGO (Some d) idleruntime_fops
                      (Some hcpu) p')) s)).
  { subst s1. rewrite callback_state. change (CPU_ONLINE =? CPU_ONLINE) with true.
    cbv iota. rewrite (setup_procfiles_mkdir hcpu root s Hroot). cbn zeta.
    by rewrite Hmk. }
  assert (Hd : idleruntime_dir s1 !! hcpu = Some d).
  { rewrite Hs1. cbn. apply lookup_insert_eq. }
  assert (Hs2 : s2 = (unset_procfiles hcpu s1).2).
  { subst s2. rewrite callback_state, Hhot. reflexivity. }
  rewrite (unset_procfiles_some hcpu d s1 Hd) in Hs2.
  split; [exact Hd|]. split; [by rewrite Hs1|].
  rewrite Hs2. cbn. split; [apply lookup_delete_eq|]. split; [done|].
  intros cpu Hne. rewrite lookup_delete_ne by done.
  rewrite Hs1. cbn. by rewrite lookup_insert_ne.
Qed.

Lemma online_then_dead_removes_the_entries_witness :
  let e := Env (fun _ => 0) (fun _ => false) 2 3 3 true in
  let s := (idleruntime_init e boot).2 in
  let s1 := (idleruntime_cpu_callback e CPU_ONLINE 1%nat s).2 in
  let s2 := (idleruntime_cpu_callback e CPU_DEAD 1%nat s1).2 in
  root_idleruntime_dir s = Some ["idleruntime"] /\
  idleruntime_dir s1 !! 1%nat = Some ["idleruntime"; "cpu1"] /\
  idleruntime_dir s2 !! 1%nat = None /\
  proc s2 = proc s.
Proof.
  destruct (online_then_dead_removes_the_entries (PF := simple_procfs)
              (Env (fun _ => 0) (fun _ => false) 2 3 3 true)
              (Env (fun _ => 0) (fun _ => false) 2 3 3 true) 1%nat
              ["idleruntime"] ["idleruntime"; "cpu1"]
              (<[["idleruntime"; "cpu1"] := Dir]>
                 (proc (idleruntime_init
                          (Env (fun _ => 0) (fun _ => false) 2 3 3 true) boot).2))
              (idleruntime_init (Env (fun _ => 0) (fun _ => false) 2 3 3 true) boot).2
              eq_refl eq_refl eq_refl) as (H1 & _ & H2 & H3 & _).
  split; [reflexivity|]. split; [exact H1|]. split; [exact H2|].
  rewrite H3. vm_compute. reflexivity.
Defined.

(** X12: when the CPU's directory cannot be made, because there is no root
    directory or because proc_mkdir fails, CPU_ONLINE creates no entry and
    sets the CPU's handle to NULL, whatever handle was recorded before; a
    CPU_DEAD that follows then makes no procfs call, so entries recorded
    under the earlier handle are not removed by it. *)
Theorem failed_online_drops_the_handle `{PF : ProcFs}
    (e e' : env) (hcpu : nat) (s : kstate) :
  match root_idleruntime_dir s with
  | Some root =>
      (proc_mkdir ("cpu" +:+ pretty hcpu) (Some root) (proc s)).1 = None
  | None => True
  end ->
  let s1 := (idleruntime_cpu_callback e CPU_ONLINE hcpu s).2 in
  idleruntime_dir s1 !! hcpu = None /\
  proc s1 =
    match root_idleruntime_dir s with
    | Some root => (proc_mkdir ("cpu" +:+ pretty hcpu) (Some root) (proc s)).2
    | None => proc s
    end /\
  idleruntime_cpu_callback e' CPU_DEAD hcpu s1 = (NOTIFY_OK, s1).
Proof.
  intros Hfail s1.
  assert (Hs1 : s1 = (setup_procfiles hcpu s).2).
  { subst s1. rewrite callback_state. reflexivity. }
  assert (Hnone : idleruntime_dir s1 !! hcpu = None /\
                  proc s1 = match root_idleruntime_dir s with
                            | Some root =>
                                (proc_mkdir ("cpu" +:+ pretty hcpu) (Some root) (proc s)).2
                            | None => proc s
                            end).
  { rewrite Hs1. destruct (root_idleruntime_dir s) as [root|] eqn:Hroot.
    - rewrite (setup_procfiles_mkdir hcpu root s Hroot). cbn zeta.
      rewrite Hfail. cbn. split; [apply lookup_delete_eq | done].
    - rewrite (setup_procfiles_no_root hcpu s Hroot). cbn.
      split; [apply lookup_delete_eq | done]. }
  destruct Hnone as [Hnone Hproc]. split; [exact Hnone|]. split; [exact Hproc|].
  unfold idleruntime_cpu_callback, mbind, M_bind, bind, mret, M_ret, ret.
  change (CPU_DEAD =? CPU_ONLINE) with false. cbv iota.
  destruct (config_hotplug_cpu e' && (CPU_DEAD =? CPU_DEAD)); [|done].
  by rewrite (unset_procfiles_none hcpu s1 Hnone).
Qed.

Lemma failed_online_drops_the_handle_witness :
  let e := Env (fun _ => 0) (fun _ => false) 2 3 3 true in
  let s := (idleruntime_init e boot).2 in
  let s1 := (idleruntime_cpu_callback e CPU_ONLINE 0%nat s).2 in
  idleruntime_dir s !! 0%nat = Some ["idleruntime"; "cpu0"] /\
  idleruntime_dir s1 !! 0%nat = None /\
  proc s1 = proc s /\
  idleruntime_cpu_callback e CPU_DEAD 0%nat s1 = (NOTIFY_OK, s1).
Proof.
  split; [reflexivity|].
  destruct (failed_online_drops_the_handle (PF := simple_procfs)
              (Env (fun _ => 0) (fun _ => false) 2 3 3 true)
              (Env (fun _ => 0) (fun _ => false) 2 3 3 true) 0%nat
              (idleruntime_init (Env (fun _ => 0) (fun _ => false) 2 3 3 true) boot).2
              eq_refl) as (H1 & H2 & H3).
  split; [exact H1|]. split; [|exact H3].
  rewrite H2. vm_compute. reflexivity.
Defined.

(** ** Initialisation *)

Section Init.
Context `{PF : ProcFs} (e : env).

Lemma init_loop_cons cpu cpus count (s : kstate) :
  init_loop e (cpu :: cpus) count s =
    init_loop e cpus (count + 1)
      (set_klog (klog s ++ [EvClock cpu; EvStore Idlestop cpu; EvStore Idlestart cpu;
                            EvLockInit cpu])
         (set_percpu_data
            (<[cpu := PerCpu (U64.wrap (clock e cpu)) (U64.wrap (clock e cpu))
                             (idletime (cell s cpu)) (runtime (cell s cpu))]>
               (percpu_data s)) s)).
Proof.
  cbn [init_loop]. run_m.
  rewrite !lookup_insert_eq, !insert_insert_eq, <- !app_assoc. reflexivity.
Qed.

Lemma init_loop_state cpus :
  forall count (s : kstate),
    let r := init_loop e cpus count s in
    r.1 = count + Z.of_nat (length cpus) /\
    same_proc_side s r.2 /\
    (forall c, c ∉ cpus -> cell r.2 c = cell s c) /\
    (forall c, c ∈ cpus ->
       cell r.2 c = PerCpu (U64.wrap (clock e c)) (U64.wrap (clock e c))
                           (idletime (cell s c)) (runtime (cell s c))).
Proof.
  induction cpus as [|cpu cpus IH]; intros count s r.
  - subst r. cbn. split; [lia|]. split; [apply same_proc_side_refl|].
    split; [done|]. intros c Hc. by apply not_elem_of_nil in Hc.
  - subst r. rewrite init_loop_cons.
    match goal with |- context [init_loop e cpus _ ?s1] => set (s1' := s1) end.
    destruct (IH (count + 1) s1') as (Hn & Hside & Hout & Hin).
    assert (Hsame : cell s1' cpu =
              PerCpu (U64.wrap (clock e cpu)) (U64.wrap (clock e cpu))
                     (idletime (cell s cpu)) (runtime (cell s cpu))).
    { subst s1'. apply cell_insert_eq. }
    assert (Hother : forall c, cpu <> c -> cell s1' c = cell s c).
    { intros c Hne. subst s1'. by apply cell_insert_ne. }
    split; [|split; [|split]].
    + rewrite Hn. cbn [length]. lia.
    + eapply same_proc_side_trans; [|exact Hside]. subst s1'. by repeat split.
    + intros c Hc. apply not_elem_of_cons in Hc as [Hne Hc].
      rewrite Hout by done. by apply Hother.
    + intros c Hc. destruct (decide (c ∈ cpus)) as [Hc'|Hc'].
      * rewrite (Hin c Hc'). destruct (decide (cpu = c)) as [->|Hne].
        -- by rewrite Hsame.
        -- by rewrite Hother.
      * apply elem_of_cons in Hc as [-> | Hc]; [|contradiction].
        rewrite Hout by done. exact Hsame.
Qed.

Lemma setup_procfiles_other_handles cpu cpu' (s : kstate) :
  cpu <> cpu' ->
  idleruntime_dir (setup_procfiles cpu s).2 !! cpu' = idleruntime_dir s !! cpu'.
Proof.
  intros Hne. destruct (root_idleruntime_dir s) as [root|] eqn:Hroot.
  - rewrite (setup_procfiles_mkdir cpu root s Hroot). cbn zeta.
    destruct (proc_mkdir _ _ _).1 as [d|]; cbn.
    + by rewrite lookup_insert_ne.
    + by rewrite lookup_delete_ne.
  - rewrite (setup_procfiles_no_root cpu s Hroot). cbn.
    by rewrite lookup_delete_ne.
Qed.

Lemma init_failure_run p' (s : kstate) :
  proc_mkdir "idleruntime" None (proc s) = (None, p') ->
  idleruntime_init e s = (0, set_root_idleruntime_dir None (set_proc p' s)).
Proof.
  destruct s as [pd dirs root p reg log]. cbn. intros Hmk.
  unfold idleruntime_init. run_m. rewrite Hmk. reflexivity.
Qed.

Lemma init_success_run root p' (s : kstate) :
  proc_mkdir "idleruntime" None (proc s) = (Some root, p') ->
  idleruntime_init e s =
    let r := init_loop e (for_each_cpu e (cpu_possible_mask e)) 0
               (set_root_idleruntime_dir (Some root) (set_proc p' s)) in
    let s3 := (setup_procfiles 0 r.2).2 in
    let a := proc_mkdir "all" (Some root) (proc s3) in
    (0, set_notifier_registered true
          (if 1 <? r.1
           then set_proc (proc_create_data "reset" S_IWUGO a.1 idleruntime_all_fops None
                            (proc_create_data "data" S_IRUGO a.1 idleruntime_all_fops
                               None a.2)) s3
           else s3)).
Proof.
  destruct s as [pd dirs root0 p reg log]. cbn [proc]. intros Hmk.
  unfold idleruntime_init. run_m. rewrite Hmk.
  destruct (init_loop e _ 0 _) as [cpus s2].
  destruct (setup_procfiles 0 s2) as [u s3].
  destruct (1 <? cpus); [|reflexivity].
  by destruct (proc_mkdir "all" (Some root) _) as [alldir p3].
Qed.

End Init.

(** X13: when the root directory cannot be made, [idleruntime_init] gives
    up without a trace: it returns 0 all the same, samples no clock, sets no
    mark, creates no entry for any CPU and does not register the notifier. *)
Theorem idleruntime_init_without_root_does_nothing `{PF : ProcFs}
    (e : env) (p' : procfs) (s : kstate) :
  proc_mkdir "idleruntime" None (proc s) = (None, p') ->
  let s' := (idleruntime_init e s).2 in
  (idleruntime_init e s).1 = 0 /\
  root_idleruntime_dir s' = None /\
  percpu_data s' = percpu_data s /\
  idleruntime_dir s' = idleruntime_dir s /\
  notifier_registered s' = notifier_registered s /\
  klog s' = klog s /\
  proc s' = p'.
Proof. intros Hmk. rewrite (init_failure_run e p' s Hmk). by repeat split. Qed.

Lemma idleruntime_init_without_root_does_nothing_witness :
  let e := Env (fun _ => 7) (fun _ => false) 2 3 3 true in
  let s := (idleruntime_init e boot).2 in
  let s' := (idleruntime_init e s).2 in
  root_idleruntime_dir s = Some ["idleruntime"] /\
  (idleruntime_init e s).1 = 0 /\
  root_idleruntime_dir s' = None /\
  percpu_data s' = percpu_data s /\
  idleruntime_dir s' = idleruntime_dir s /\
  notifier_registered s' = notifier_registered s /\
  klog s' = klog s /\
  proc s' = proc s.
Proof.
  split; [reflexivity|].
  exact (idleruntime_init_without_root_does_nothing (PF := simple_procfs)
           (Env (fun _ => 7) (fun _ => false) 2 3 3 true)
           (proc (idleruntime_init (Env (fun _ => 7) (fun _ => false) 2 3 3 true)
                    boot).2)
           (idleruntime_init (Env (fun _ => 7) (fun _ => false) 2 3 3 true) boot).2
           eq_refl).
Defined.

(** X14: when the root directory is made, [idleruntime_init] sets both
    marks of every possible CPU to that CPU's clock value and leaves the
    accumulators and the CPUs outside the possible mask as they were; it
    records the root directory, registers the notifier and returns 0.  Of
    the per-CPU handles only that of CPU 0 is written. *)
Theorem idleruntime_init_marks_possible_cpus `{PF : ProcFs}
    (e : env) (root : proc_dir_entry) (p' : procfs) (s : kstate) :
  proc_mkdir "idleruntime" None (proc s) = (Some root, p') ->
  let s' := (idleruntime_init e s).2 in
  (idleruntime_init e s).1 = 0 /\
  root_idleruntime_dir s' = Some root /\
  notifier_registered s' = true /\
  (forall cpu,
     cell s' cpu =
       if cpu_in_mask e (cpu_possible_mask e) cpu
       then PerCpu (U64.wrap (clock e cpu)) (U64.wrap (clock e cpu))
                   (idletime (cell s cpu)) (runtime (cell s cpu))
       else cell s cpu) /\
  (forall cpu, cpu <> 0%nat -> idleruntime_dir s' !! cpu = idleruntime_dir s !! cpu).
Proof.
  intros Hmk s'. subst s'. rewrite (init_success_run e root p' s Hmk). cbn zeta.
  set (s1 := set_root_idleruntime_dir (Some root) (set_proc p' s)).
  destruct (init_loop_state e (for_each_cpu e (cpu_possible_mask e)) 0 s1)
    as (_ & (Hdirs & Hroot & _ & _) & Hout & Hin).
  set (r := init_loop e (for_each_cpu e (cpu_possible_mask e)) 0 s1) in *.
  destruct (setup_procfiles_rest 0 r.2) as (Hroot3 & _ & _).
  pose proof (setup_procfiles_percpu 0 r.2) as Hpd3.
  set (s3 := (setup_procfiles 0 r.2).2) in *.
  assert (Hcell3 : forall c, cell s3 c = cell r.2 c).
  { intros c. unfold cell. by rewrite Hpd3. }
  split; [done|].
  destruct (1 <? r.1); cbn.
  all: split; [by rewrite Hroot3, Hroot|]; split; [done|]; split.
  all: try (intros cpu Hne; subst s3;
            rewrite setup_procfiles_other_handles by done; by rewrite Hdirs).
  all: intros cpu;
    change (cell s3 cpu =
            if cpu_in_mask e (cpu_possible_mask e) cpu
            then PerCpu (U64.wrap (clock e cpu)) (U64.wrap (clock e cpu))
                        (idletime (cell s cpu)) (runtime (cell s cpu))
            else cell s cpu);
    rewrite Hcell3;
    destruct (cpu_in_mask e (cpu_possible_mask e) cpu) eqn:Hmask;
    [ apply for_each_cpu_spec in Hmask; exact (Hin cpu Hmask)
    | assert (Hnot : cpu ∉ for_each_cpu e (cpu_possible_mask e))
        by (rewrite for_each_cpu_spec; congruence);
      exact (Hout cpu Hnot) ].
Qed.

Lemma idleruntime_init_marks_possible_cpus_witness :
  let e := Env (fun cpu => if Nat.eqb cpu 0 then 7 else 9) (fun _ => false)
               2 1 3 true in
  let s' := (idleruntime_init e boot).2 in
  (idleruntime_init e boot).1 = 0 /\
  root_idleruntime_dir s' = Some ["idleruntime"] /\
  notifier_registered s' = true /\
  cell s' 0 = PerCpu 7 7 0 0 /\
  cell s' 1 = PerCpu 9 9 0 0 /\
  cell s' 2 = PerCpu 0 0 0 0 /\
  idleruntime_dir s' !! 1%nat = None.
Proof.
  destruct (idleruntime_init_marks_possible_cpus (PF := simple_procfs)
              (Env (fun cpu => if Nat.eqb cpu 0 then 7 else 9) (fun _ => false)
                   2 1 3 true)
              ["idleruntime"] {[ ["idleruntime"] := Dir ]} boot eq_refl)
    as (H0 & Hroot & Hreg & Hcells & Hdirs).
  split; [exact H0|]. split; [exact Hroot|]. split; [exact Hreg|].
  split; [exact (Hcells 0%nat)|]. split; [exact (Hcells 1%nat)|].
  split; [exact (Hcells 2%nat)|].
  rewrite (Hdirs 1%nat) by discriminate. reflexivity.
Defined.

(** ** What successive reads add up to *)

Section Sums.
Context `{PF : ProcFs}.

Lemma wrap_add_wrap_l a b : U64.wrap (U64.wrap a + b) = U64.wrap (a + b).
Proof. apply U64Facts.add_wrap_l. Qed.

Lemma account_totals (e : env) cpu c :
  wf_percpu c ->
  let c' := account (curr_is_idle e cpu) (U64.wrap (clock e cpu)) c in
  idletime c' = U64.wrap (idletime c + added_idle cpu c [e]) /\
  runtime c' = U64.wrap (runtime c + added_run cpu c [e]) /\
  idlestart c' = idlestart c /\ idlestop c' = idlestop c.
Proof.
  intros (_ & _ & Hidle & Hrun). unfold account, added_idle, added_run, Zsum.
  cbn [fmap list_fmap foldr].
  destruct (curr_is_idle e cpu); cbn; rewrite !Z.add_0_r.
  - rewrite U64Facts.add_sub, (U64Facts.wrap_small (runtime c)); done.
  - rewrite U64Facts.add_sub, (U64Facts.wrap_small (idletime c)); done.
Qed.

Lemma added_cons cpu c (e : env) es :
  added_idle cpu c (e :: es) = added_idle cpu c [e] + added_idle cpu c es /\
  added_run cpu c (e :: es) = added_run cpu c [e] + added_run cpu c es.
Proof.
  unfold added_idle, added_run, Zsum. cbn [fmap list_fmap foldr]. lia.
Qed.

Lemma added_same_marks cpu c c' es :
  idlestart c' = idlestart c -> idlestop c' = idlestop c ->
  added_idle cpu c' es = added_idle cpu c es /\
  added_run cpu c' es = added_run cpu c es.
Proof. intros Hs Hp. unfold added_idle, added_run. by rewrite Hs, Hp. Qed.

End Sums.

(** X15: reads accumulate from the marks.  The n-th of a series of reads of
    one CPU returns the accumulators it started from plus, for every read
    up to and including itself, the distance from the mark of the state the
    CPU was then in to the clock value of that read (in 64-bit
    arithmetic). *)
Theorem get_seq_adds_mark_distances `{PF : ProcFs} cpu (es : list env) (s : kstate) :
  let c := cell s cpu in
  wf_percpu c ->
  forall n,
    (n < length es)%nat ->
    (get_seq cpu es s).1 !! n =
      Some (U64.wrap (idletime c + added_idle cpu c (take (S n) es)),
            U64.wrap (runtime c + added_run cpu c (take (S n) es))).
Proof.
  revert s. induction es as [|e es IH]; intros s c Hwf n Hn; [cbn in Hn; lia|].
  rewrite get_seq_cons.
  destruct (account_totals e cpu c Hwf) as (Hi & Hr & Hs & Hp).
  destruct n as [|n].
  - rewrite lookup_cons, get_result. cbn zeta. fold c.
    change (take 1 (e :: es)) with [e]. by rewrite Hi, Hr.
  - rewrite lookup_cons. cbn in Hn.
    specialize (IH (idleruntime_get e cpu s).2). cbn zeta in IH.
    rewrite get_cell in IH. fold c in IH.
    rewrite (IH (account_wf _ _ _ Hwf) n ltac:(lia)).
    destruct (added_same_marks cpu c _ (take (S n) es) Hs Hp) as [-> ->].
    rewrite Hi, Hr, !wrap_add_wrap_l.
    change (take (S (S n)) (e :: es)) with (e :: take (S n) es).
    destruct (added_cons cpu c e (take (S n) es)) as [-> ->].
    by rewrite !Z.add_assoc.
Qed.

Lemma get_seq_adds_mark_distances_witness :
  let at10 := Env (fun _ => 10) (fun _ => true) 1 1 1 true in
  let at25 := Env (fun _ => 25) (fun _ => true) 1 1 1 true in
  let at40 := Env (fun _ => 40) (fun _ => false) 1 1 1 true in
  let s := with_cell 0 (PerCpu 4 6 100 200) in
  wf_percpu (cell s 0) /\
  (2 < length [at10; at25; at40])%nat /\
  (get_seq 0 [at10; at25; at40] s).1 !! 2%nat =
    Some (U64.wrap (100 + ((10 - 4) + (25 - 4))), U64.wrap (200 + (40 - 6))).
Proof.
  assert (Hwf : wf_percpu (cell (with_cell 0 (PerCpu 4 6 100 200)) 0)).
  { vm_compute. intuition congruence. }
  pose (es := [Env (fun _ => 10) (fun _ => true) 1 1 1 true;
               Env (fun _ => 25) (fun _ => true) 1 1 1 true;
               Env (fun _ => 40) (fun _ => false) 1 1 1 true]).
  assert (Hn : (2 < length es)%nat) by (cbn; lia).
  split; [exact Hwf|]. split; [exact Hn|].
  refine (eq_trans (get_seq_adds_mark_distances 0%nat es _ Hwf 2%nat Hn) _).
  vm_compute. reflexivity.
Defined.

(** ** A reset of all CPUs followed by a read of all *)

(** X16: after the aggregate reset, an aggregate read over the same present
    CPUs, at clock values that have not gone back, prints in the idle total
    the sum of the times elapsed on the CPUs that are idle at the read and in
    the run total the sum of the times elapsed on the others (64-bit sums);
    nothing from before the reset is left in it. *)
Theorem show_all_after_reset_all_prints_elapsed `{PF : ProcFs}
    (e e' : env) (len : Z) (m : seq_file) (s : kstate) :
  nr_cpu_ids e' = nr_cpu_ids e ->
  cpu_present_mask e' = cpu_present_mask e ->
  (forall cpu, cpu_in_mask e (cpu_present_mask e) cpu = true ->
               U64.wrap (clock e cpu) <= U64.wrap (clock e' cpu)) ->
  let cpus := for_each_cpu e (cpu_present_mask e) in
  (idleruntime_show_all e' m (idleruntime_reset_all e len s).2).1 =
    (0, idleruntime_output m
          (U64.wrap (Zsum ((fun cpu => if curr_is_idle e' cpu
                                       then elapsed e e' cpu else 0) <$> cpus)))
          (U64.wrap (Zsum ((fun cpu => if curr_is_idle e' cpu
                                       then 0 else elapsed e e' cpu) <$> cpus)))).
Proof.
  intros Hnr Hmask Hclk cpus.
  rewrite show_all_result. cbn zeta.
  assert (Hcpus : for_each_cpu e' (cpu_present_mask e') = cpus).
  { unfold cpus, for_each_cpu. by rewrite Hnr, Hmask. }
  rewrite Hcpus.
  pose proof (reset_all_cells e len s) as Hcells.
  assert (Hread : forall cpu, cpu ∈ cpus ->
            (idleruntime_get e' cpu (idleruntime_reset_all e len s).2).1 =
              if curr_is_idle e' cpu then (elapsed e e' cpu, 0)
              else (0, elapsed e e' cpu)).
  { intros cpu Hin. apply for_each_cpu_spec in Hin.
    rewrite get_result, Hcells, Hin. unfold account, elapsed.
    pose proof (U64Facts.wrap_range (clock e cpu)) as H1.
    pose proof (U64Facts.wrap_range (clock e' cpu)) as H2.
    specialize (Hclk cpu Hin).
    assert (Hsub : U64.add 0 (U64.sub (U64.wrap (clock e' cpu)) (U64.wrap (clock e cpu)))
                   = U64.wrap (clock e' cpu) - U64.wrap (clock e cpu)).
    { rewrite U64Facts.add_sub, Z.add_0_l. apply U64Facts.wrap_small.
      unfold U64.in_range in *. lia. }
    destruct (curr_is_idle e' cpu); cbn; by rewrite Hsub. }
  do 2 f_equal.
  - f_equal. f_equal. apply Forall_fmap_ext_1, Forall_forall. intros cpu Hin.
    rewrite (Hread cpu Hin). by destruct (curr_is_idle e' cpu).
  - f_equal. f_equal. apply Forall_fmap_ext_1, Forall_forall. intros cpu Hin.
    rewrite (Hread cpu Hin). by destruct (curr_is_idle e' cpu).
Qed.

Lemma show_all_after_reset_all_prints_elapsed_witness :
  let e := Env (fun _ => 100) (fun _ => true) 2 3 3 true in
  let e' := Env (fun cpu => if Nat.eqb cpu 0 then 300 else 500)
                (fun cpu => Nat.eqb cpu 0) 2 3 3 true in
  let s := with_cell 1 (PerCpu 1 2 3 4) in
  (idleruntime_show_all e' (SeqFile 0 "") (idleruntime_reset_all e 1 s).2).1 =
    (0, SeqFile 0 ("200 400" +:+ newline)).
Proof.
  pose (e := Env (fun _ => 100) (fun _ => true) 2 3 3 true).
  pose (e' := Env (fun cpu => if Nat.eqb cpu 0 then 300 else 500)
                  (fun cpu => Nat.eqb cpu 0) 2 3 3 true).
  assert (Hclk : forall cpu, cpu_in_mask e (cpu_present_mask e) cpu = true ->
                   U64.wrap (clock e cpu) <= U64.wrap (clock e' cpu)).
  { intros cpu _. destruct cpu; vm_compute; congruence. }
  refine (eq_trans (show_all_after_reset_all_prints_elapsed e e' 1 (SeqFile 0 "")
                      (with_cell 1 (PerCpu 1 2 3 4)) eq_refl eq_refl Hclk) _).
  vm_compute. reflexivity.
Defined.

(** X17: a write to the reset entry of one CPU reaches nothing but the four
    variables of that CPU: the counters of every other CPU and the whole
    proc side are as they were, and all of it happens under that CPU's
    lock.  The length of the write, a size_t, is returned as an ssize_t
    whatever was written: the length itself below 2^(BITS_PER_LONG - 1),
    and a negative value, the length less 2^BITS_PER_LONG, from there on. *)
Theorem idleruntime_reset_touches_one_cpu `{PF : ProcFs}
    (e : env) (cpu : nat) (len : Z) (s : kstate) :
  let s' := (idleruntime_reset e cpu len s).2 in
  let w := bits_per_long e in
  (idleruntime_reset e cpu len s).1 = size_t_to_ssize_t w len /\
  (0 <= len < 2 ^ (w - 1) -> (idleruntime_reset e cpu len s).1 = len) /\
  (0 < w -> 2 ^ (w - 1) <= len < 2 ^ w ->
   (idleruntime_reset e cpu len s).1 = len - 2 ^ w) /\
  (forall cpu', cpu <> cpu' -> cell s' cpu' = cell s cpu') /\
  same_proc_side s s' /\
  emitted s s' = reset1_events cpu.
Proof.
  intros s' w. subst s'. rewrite reset_state.
  assert (Hres : (idleruntime_reset e cpu len s).1 = size_t_to_ssize_t w len).
  { unfold idleruntime_reset, mbind, M_bind, bind, mret, M_ret, ret.
    by rewrite idleruntime_reset1_run. }
  split; [exact Hres|]. split; [|split; [|split; [|split]]].
  - intros Hlen. rewrite Hres. by apply ssize_small.
  - intros Hw Hlen. rewrite Hres. by apply ssize_large.
  - intros cpu' Hne. by apply reset1_cell_other.
  - apply reset1_same_proc_side.
  - apply emitted_app, reset1_klog.
Qed.

Lemma idleruntime_reset_touches_one_cpu_witness :
  let e := Env (fun _ => 100) (fun _ => true) 2 3 3 true in
  let s := with_cell 1 (PerCpu 1 2 3 4) in
  let s' := (idleruntime_reset e 0%nat 8 s).2 in
  (idleruntime_reset e 0%nat 8 s).1 = 8 /\
  (idleruntime_reset e 0%nat 18446744073709551611 s).1 = -5 /\
  cell s' 1 = PerCpu 1 2 3 4 /\
  same_proc_side s s' /\
  emitted s s' = reset1_events 0.
Proof.
  pose (e := Env (fun _ => 100) (fun _ => true) 2 3 3 true).
  pose (s := with_cell 1 (PerCpu 1 2 3 4)).
  destruct (idleruntime_reset_touches_one_cpu e 0%nat 8 s)
    as (_ & Hsmall & _ & Hother & Hside & Hev).
  destruct (idleruntime_reset_touches_one_cpu e 0%nat 18446744073709551611 s)
    as (_ & _ & Hlarge & _).
  split; [apply Hsmall; vm_compute; split; congruence|].
  split; [exact (Hlarge eq_refl ltac:(vm_compute; split; congruence))|].
  split; [exact (Hother 1%nat ltac:(discriminate))|].
  split; [exact Hside | exact Hev].
Defined.

(** ** The aggregate entries *)

Section AllEntries.
Context `{PF : ProcFs}.

Lemma setup_procfiles_proc cpu (s1 s2 : kstate) :
  root_idleruntime_dir s1 = root_idleruntime_dir s2 ->
  proc s1 = proc s2 ->
  proc (setup_procfiles cpu s1).2 = proc (setup_procfiles cpu s2).2.
Proof.
  intros Hroot Hproc. destruct (root_idleruntime_dir s2) as [root|] eqn:Hr2.
  - rewrite (setup_procfiles_mkdir cpu root s1 Hroot),
            (setup_procfiles_mkdir cpu root s2 Hr2). cbn zeta. rewrite Hproc.
    by destruct (proc_mkdir _ _ _).1.
  - by rewrite (setup_procfiles_no_root cpu s1 Hroot),
               (setup_procfiles_no_root cpu s2 Hr2).
Qed.

End AllEntries.

(** X18: the aggregate directory is asked for only when there is more than
    one possible CPU.  With at most one, procfs sees the calls for the root
    directory and for CPU 0 and no other; with more, [all] is requested
    under the root and [data] and [reset] are created with whatever that
    request returned as their parent, a NULL result included. *)
Theorem idleruntime_init_aggregate_entries `{PF : ProcFs}
    (e : env) (root : proc_dir_entry) (p' : procfs) (s : kstate) :
  proc_mkdir "idleruntime" None (proc s) = (Some root, p') ->
  let n := length (for_each_cpu e (cpu_possible_mask e)) in
  let p3 := proc (setup_procfiles 0
                    (set_root_idleruntime_dir (Some root) (set_proc p' s))).2 in
  let a := proc_mkdir "all" (Some root) p3 in
  proc (idleruntime_init e s).2 =
    if (1 <? n)%nat
    then proc_create_data "reset" S_IWUGO a.1 idleruntime_all_fops None
           (proc_create_data "data" S_IRUGO a.1 idleruntime_all_fops None a.2)
    else p3.
Proof.
  intros Hmk n p3 a. rewrite (init_success_run e root p' s Hmk). cbn zeta.
  set (s1 := set_root_idleruntime_dir (Some root) (set_proc p' s)) in *.
  destruct (init_loop_state e (for_each_cpu e (cpu_possible_mask e)) 0 s1)
    as (Hcount & (_ & Hroot & Hproc & _) & _).
  set (r := init_loop e (for_each_cpu e (cpu_possible_mask e)) 0 s1) in *.
  assert (Hp3 : proc (setup_procfiles 0 r.2).2 = p3).
  { subst p3. by apply setup_procfiles_proc. }
  assert (Hn : (1 <? r.1) = (1 <? n)%nat).
  { rewrite Hcount. fold n. destruct (Nat.ltb_spec 1 n); [apply Z.ltb_lt | apply Z.ltb_ge]; lia. }
  rewrite Hn. destruct (1 <? n)%nat; cbn; by rewrite Hp3.
Qed.

Lemma idleruntime_init_aggregate_entries_witness :
  let one := Env (fun _ => 0) (fun _ => false) 4 1 1 true in
  let two := Env (fun _ => 0) (fun _ => false) 4 3 5 true in
  proc (idleruntime_init one boot).2 !! ["idleruntime"; "all"] = None /\
  proc (idleruntime_init two boot).2 !! ["idleruntime"; "all"] = Some Dir /\
  proc (idleruntime_init two boot).2 !! ["idleruntime"; "all"; "data"] =
    Some (File S_IRUGO idleruntime_all_fops None).
Proof.
  pose proof (idleruntime_init_aggregate_entries (PF := simple_procfs)
                (Env (fun _ => 0) (fun _ => false) 4 1 1 true)
                ["idleruntime"] {[ ["idleruntime"] := Dir ]} boot eq_refl) as H1.
  pose proof (idleruntime_init_aggregate_entries (PF := simple_procfs)
                (Env (fun _ => 0) (fun _ => false) 4 3 5 true)
                ["idleruntime"] {[ ["idleruntime"] := Dir ]} boot eq_refl) as H2.
  cbn zeta in H1, H2.
  split; [|split].
  - rewrite H1. vm_compute. reflexivity.
  - rewrite H2. vm_compute. reflexivity.
  - rewrite H2. vm_compute. reflexivity.
Defined.
